(** * Chair views of the conference site: listings and CSV exports

    Shallow embedding of [wwwdccn/chair/views.py].  The views are request
    handlers over the ORM; here the database is an explicit value, a raised
    Python exception is an explicit [Raise] result, and the pieces of the
    project that the views call but that live in other modules (model
    methods, the filter forms, the URL table, [is_author]) are parameters
    of the development.  A view is modelled from the point where its
    decorators ([chair_required], [require_GET]) have let the request
    through.  A CSV response is kept as the list of rows handed to the
    writer, and a rendered page as the context handed to the template. *)

From Stdlib Require Import Ascii.
From stdpp Require Import base list list_monad strings pretty sorting.

Local Open Scope string_scope.
Local Open Scope Z_scope.

(** ** Exceptions and the error monad

    A step that may raise has a [result]; steps are chained with the bind
    of the monad.  A generator expression whose body may raise is a
    [mapM]: the elements are evaluated left to right and the first
    exception ends the traversal. *)

Inductive error : Type :=
  | Http404                    (* get_object_or_404 found nothing *)
  | RelatedObjectDoesNotExist  (* reverse one-to-one accessor, no row *)
  | DoesNotExist               (* forward foreign key, no row *)
  | KeyError.                  (* dict subscript on a missing key *)

Inductive result (A : Type) : Type :=
  | Ok (a : A)
  | Raise (e : error).
Arguments Ok {A} a.
Arguments Raise {A} e.

Global Instance result_ret : MRet result := fun _ a => Ok a.
Global Instance result_bind : MBind result := fun _ _ k r =>
  match r with
  | Ok a => k a
  | Raise e => Raise e
  end.

(** The computation ends without an exception. *)
Definition returns {A} (r : result A) : Prop := exists a, r = Ok a.

(** ** Records of the data layer

    Only the columns that the views read are kept. *)

Record Profile : Type := mkProfile {
  first_name : string;
  last_name : string;
  avatar : string;
  country : string;
  city : string;
  affiliation : string;
  degree : string;
  role : string;
}.

(** [profile] is the reverse side of the one-to-one link from Profile to
    User: [None] when no Profile row points at the user. *)
Record User : Type := mkUser {
  user_pk : Z;
  email : string;
  profile : option Profile;
}.

Record SubmissionType : Type := mkSType {
  language : string;
}.

(** [created_by] and [stype] are nullable foreign keys; [review_manuscript]
    is a file field, stored as the file name, empty when nothing is
    attached. *)
Record Submission : Type := mkSubmission {
  sub_pk : Z;
  title : string;
  abstract : string;
  status : string;
  sub_conference : Z;
  created_by : option Z;
  review_manuscript : string;
  stype : option SubmissionType;
}.

(** The Author row links one user to one submission. *)
Record Author : Type := mkAuthor {
  author_pk : Z;
  author_user : Z;
  author_submission : Z;
}.

Record Conference : Type := mkConference {
  conf_pk : Z;
  short_name : string;
}.

(** Tables are lists: the order of a list is the order in which an
    unordered query returns the rows. *)
Record DB : Type := mkDB {
  conferences : list Conference;
  users : list User;
  submissions : list Submission;
  authorships : list Author;
}.

(** ** Requests, clock and responses *)

Inductive Scheme : Type := HTTP | HTTPS.

Definition scheme_name (s : Scheme) : string :=
  match s with HTTP => "http" | HTTPS => "https" end.

Definition QueryDict : Type := list (string * string).

Record HttpRequest : Type := mkRequest {
  GET : QueryDict;
  scheme : Scheme;
  host : string;
}.

(** A reading of the wall clock, as [datetime.now()] returns it. *)
Record datetime : Type := mkDatetime {
  year : Z;
  month : Z;
  day : Z;
  hour : Z;
  minute : Z;
}.

Definition valid_datetime (t : datetime) : Prop :=
  1000 <= year t <= 9999 /\ 1 <= month t <= 12 /\ 1 <= day t <= 31 /\
  0 <= hour t <= 23 /\ 0 <= minute t <= 59.

(** A cell handed to [csv.writer.writerow]: the views pass integers and
    strings. *)
Inductive cell : Type :=
  | CInt (n : Z)
  | CStr (s : string).

Definition row : Type := list cell.

Record HttpResponse : Type := mkResponse {
  content_type : string;
  content_disposition : string;
  rows : list row;
}.

Global Instance cell_eq_dec : EqDecision cell.
Proof. solve_decision. Defined.

(** ** Python and framework primitives *)

Definition dquote : string := String (ascii_of_nat 34) EmptyString.

(** [sep.join(parts)] *)
Definition join (sep : string) (parts : list string) : string :=
  String.concat sep parts.

Definition digit (d : Z) : ascii := ascii_of_nat (48 + Z.to_nat (d `mod` 10)).

(** Zero-padded fields of [strftime]: [%m], [%d], [%H], [%M] are two
    digits wide and [%Y] four. *)
Definition digits2 (n : Z) : string :=
  String (digit (n `div` 10)) (String (digit n) EmptyString).

Definition digits4 (n : Z) : string :=
  String (digit (n `div` 1000)) (String (digit (n `div` 100)) (digits2 n)).

(** [t.strftime("%Y%m%d_%H%M")] *)
Definition strftime (t : datetime) : string :=
  digits4 (year t) +:+ digits2 (month t) +:+ digits2 (day t) +:+ "_" +:+
  digits2 (hour t) +:+ digits2 (minute t).

(** [request.build_absolute_uri(location)] for a location that is an
    absolute path, as [reverse] returns it: the current scheme and host
    are put in front.  (The path of a reversed route has no dot segments
    and needs no escaping, so it is kept as it is.) *)
Definition build_absolute_uri (request : HttpRequest) (location : string)
  : string :=
  scheme_name (scheme request) +:+ "://" +:+ host request +:+ location.

(** Truth value of a file field: whether a file name is stored. *)
Definition file_attached (name : string) : bool :=
  match name with
  | EmptyString => false
  | String _ _ => true
  end.

(** ** ORM queries *)

(** [get_object_or_404(Conference, pk=pk)] *)
Definition get_conference_or_404 (db : DB) (pk : Z) : result Conference :=
  match List.find (fun c => conf_pk c =? pk) (conferences db) with
  | Some c => Ok c
  | None => Raise Http404
  end.

(** [conference.submission_set.all()] *)
Definition submission_set (db : DB) (conference : Conference)
  : list Submission :=
  List.filter (fun s => sub_conference s =? conf_pk conference)
              (submissions db).

(** [.order_by('pk')] on submissions and on users *)
Definition sub_le (x y : Submission) : Prop := sub_pk x <= sub_pk y.
Definition user_le (x y : User) : Prop := user_pk x <= user_pk y.

Global Instance sub_le_dec x y : Decision (sub_le x y).
Proof. unfold sub_le. apply _. Defined.
Global Instance user_le_dec x y : Decision (user_le x y).
Proof. unfold user_le. apply _. Defined.

Definition order_subs_by_pk (l : list Submission) : list Submission :=
  merge_sort sub_le l.
Definition order_users_by_pk (l : list User) : list User :=
  merge_sort user_le l.

(** [sub.authors.all()] *)
Definition sub_authors (db : DB) (sub : Submission) : list Author :=
  List.filter (fun a => author_submission a =? sub_pk sub) (authorships db).

(** Following a foreign key to the user table. *)
Definition get_user (db : DB) (pk : Z) : result User :=
  match List.find (fun u => user_pk u =? pk) (users db) with
  | Some u => Ok u
  | None => Raise DoesNotExist
  end.

Definition get_submission (db : DB) (pk : Z) : option Submission :=
  List.find (fun s => sub_pk s =? pk) (submissions db).

(** [user.profile] *)
Definition user_profile (u : User) : result Profile :=
  match profile u with
  | Some p => Ok p
  | None => Raise RelatedObjectDoesNotExist
  end.

(** [a.user.profile] *)
Definition author_profile (db : DB) (a : Author) : result Profile :=
  u ← get_user db (author_user a); user_profile u.

(** [user.authorship.filter(submission__conference=conference)] *)
Definition user_authorships_in (db : DB) (conference : Conference) (u : User)
  : list Author :=
  List.filter
    (fun a => (author_user a =? user_pk u) &&
              match get_submission db (author_submission a) with
              | Some s => sub_conference s =? conf_pk conference
              | None => false
              end)
    (authorships db).

(** ** Python dictionaries keyed by model instances

    Two instances of a model are the same key when their primary keys are
    equal.  Assigning to a key that is present keeps the entry where it is
    and replaces its value; a new key goes to the end.  Iteration follows
    insertion order. *)

Section dict.
Context {K V : Type} (key : K -> Z).

Fixpoint dict_set (k : K) (v : V) (d : list (K * V)) : list (K * V) :=
  match d with
  | [] => [(k, v)]
  | (k', v') :: d' =>
      if key k' =? key k then (k', v) :: d' else (k', v') :: dict_set k v d'
  end.

Definition dict_get (k : K) (d : list (K * V)) : result V :=
  match List.find (fun kv => key kv.1 =? key k) d with
  | Some kv => Ok kv.2
  | None => Raise KeyError
  end.

(** The keys, in iteration order. *)
Definition dict_keys (d : list (K * V)) : list Z :=
  (fun kv => key kv.1) <$> d.

(** [{k: f(k) for k in l}], continuing from the entries in [d] *)
Fixpoint dict_comp (f : K -> result V) (l : list K) (d : list (K * V))
  : result (list (K * V)) :=
  match l with
  | [] => Ok d
  | k :: l' => v ← f k; dict_comp f l' (dict_set k v d)
  end.
End dict.

(** ** Parts of the project that live in other modules *)

(** Methods of the model classes and the helper
    [conferences.helpers.is_author].  The views only call them. *)
Record ModelLayer : Type := mkModelLayer {
  get_full_name : Profile -> string;
  get_full_name_rus : Profile -> string;
  get_country_display : Profile -> string;
  get_language_display : SubmissionType -> string;
  get_status_display : Submission -> string;
  warnings : DB -> Submission -> list string;
  is_author : DB -> Conference -> User -> bool;
}.

(** A filter form of [chair.forms], bound to the query parameters and to
    the conference: [form.is_valid()] answers with a boolean and
    [form.apply(records)] narrows a record set. *)
Record FilterForm (A : Type) : Type := mkFilterForm {
  form_is_valid : DB -> Conference -> QueryDict -> bool;
  form_apply : DB -> Conference -> QueryDict -> list A -> list A;
}.
Arguments form_is_valid {A} _ _ _ _.
Arguments form_apply {A} _ _ _ _ _.

(** A form for which an empty parameter set narrows nothing. *)
Definition empty_is_no_filter {A} (form : FilterForm A) : Prop :=
  forall db conference records,
    form_is_valid form db conference [] = true ->
    form_apply form db conference [] records = records.

Module urls.
(** Modelled from the spec: the URL table of the project is not part of
    this module.  The route [submissions:download-manuscript] takes the
    submission's identifier as its only argument; its pattern is kept as
    the literal text before and after that argument. *)
Record Route : Type := mkRoute {
  route_prefix : string;
  route_suffix : string;
}.

(** [reverse(name, args=[pk])]: the path starts at the site root and the
    argument is written in decimal. *)
Definition reverse (r : Route) (pk : Z) : string :=
  "/" +:+ route_prefix r +:+ pretty pk +:+ route_suffix r.
End urls.

(** The order in which Python iterates over [set(labels)] is not fixed
    by the language; any order over the distinct elements is allowed. *)
Definition set_iteration (order : list string -> list string) : Prop :=
  forall labels,
    NoDup (order labels) /\ (forall x, x ∈ order labels <-> x ∈ labels).

(** ** Shapes handed to the templates *)

Record SubmissionEntry : Type := mkSubmissionEntry {
  se_object : Submission;
  se_warnings : list string;
  se_title : string;
  se_abstract : string;
  se_authors : list (string * Z);
  se_authors_display : string;
  se_pk : Z;
  se_status : string;
  se_status_display : string;
}.

Record UserEntry : Type := mkUserEntry {
  ue_pk : Z;
  ue_name : string;
  ue_name_rus : string;
  ue_avatar : string;
  ue_country : string;
  ue_city : string;
  ue_affiliation : string;
  ue_degree : string;
  ue_role : string;
  num_submissions : nat;
  is_participant : bool;
}.

(** The context of a rendered listing. *)
Record ListContext (E : Type) : Type := mkListContext {
  ctx_conference : Conference;
  ctx_items : list E;
}.
Arguments mkListContext {E} _ _.
Arguments ctx_conference {E} _.
Arguments ctx_items {E} _.

(** The CSV writer loop: one row per record, [number] counting up. *)
Fixpoint write_rows {A} (mk_row : Z -> A -> result row) (number : Z)
  (records : list A) : result (list row) :=
  match records with
  | [] => Ok []
  | r :: records' =>
      line ← mk_row number r;
      lines ← write_rows mk_row (number + 1) records';
      Ok (line :: lines)
  end.

Definition attachment (entity timestamp : string) : string :=
  "attachment; filename=" +:+ dquote +:+ entity +:+ "-" +:+ timestamp +:+
  ".csv" +:+ dquote.

Definition submissions_header : row :=
  [CStr "#"; CStr "ID"; CStr "TITLE"; CStr "AUTHORS"; CStr "COUNTRY";
   CStr "CORR_AUTHOR"; CStr "CORR_EMAIL"; CStr "LANGUAGE"; CStr "LINK"].

Definition authors_header : row :=
  [CStr "#"; CStr "ID"; CStr "FULL_NAME"; CStr "FULL_NAME_RUS"; CStr "DEGREE";
   CStr "COUNTRY"; CStr "CITY"; CStr "AFFILIATION"; CStr "ROLE"; CStr "EMAIL"].

(** ** The views *)

Section views.
Context (M : ModelLayer).
Context (download_manuscript : urls.Route).
Context (set_order : list string -> list string).
Context (FilterSubmissionsForm : FilterForm Submission).
Context (FilterUsersForm : FilterForm User).

(** [Profile.objects.filter(user__authorship__submission=sub).values(
    'first_name', 'last_name', 'user__pk')]: one row per authorship of
    the submission whose user is stored with a profile.  The query has no
    ordering of its own; the rows come in the order of the Author
    table. *)
Definition author_profile_values (db : DB) (sub : Submission)
  : list (string * string * Z) :=
  a ← sub_authors db sub;
  u ← List.filter (fun u => user_pk u =? author_user a) (users db);
  match profile u with
  | None => []
  | Some p => [(first_name p, last_name p, user_pk u)]
  end.

Definition display_name (v : string * string * Z) : string :=
  v.1.1 +:+ " " +:+ v.1.2.

Definition submission_entry (db : DB)
  (auth_prs : list (Submission * list (string * string * Z)))
  (sub : Submission) : result SubmissionEntry :=
  prs ← dict_get sub_pk sub auth_prs;
  Ok {| se_object := sub;
        se_warnings := warnings M db sub;
        se_title := title sub;
        se_abstract := abstract sub;
        se_authors := (fun v => (display_name v, v.2)) <$> prs;
        se_authors_display := join ", " (display_name <$> prs);
        se_pk := sub_pk sub;
        se_status := status sub;
        se_status_display := get_status_display M sub |}.

(** The record set [submissions_list] works on, after the optional
    filter. *)
Definition listed_submissions (db : DB) (request : HttpRequest)
  (conference : Conference) : list Submission :=
  let all := submission_set db conference in
  if form_is_valid FilterSubmissionsForm db conference (GET request)
  then form_apply FilterSubmissionsForm db conference (GET request) all
  else all.

Definition submissions_list (db : DB) (request : HttpRequest) (pk : Z)
  : result (ListContext SubmissionEntry) :=
  conference ← get_conference_or_404 db pk;
  let submissions := listed_submissions db request conference in
  auth_prs ← dict_comp sub_pk (fun sub => Ok (author_profile_values db sub))
               submissions [];
  subs ← mapM (submission_entry db auth_prs) submissions;
  Ok (mkListContext conference subs).

Definition user_entry (authors : list (User * list Author))
  (item : User * Profile) : result UserEntry :=
  let (user, prof) := item in
  au ← dict_get user_pk user authors;
  Ok {| ue_pk := user_pk user;
        ue_name := get_full_name M prof;
        ue_name_rus := get_full_name_rus M prof;
        ue_avatar := avatar prof;
        ue_country := country prof;
        ue_city := city prof;
        ue_affiliation := affiliation prof;
        ue_degree := degree prof;
        ue_role := role prof;
        num_submissions := length au;
        is_participant := bool_decide (0 < length au)%nat |}.

(** The record set [users_list] works on, after the optional filter. *)
Definition listed_users (db : DB) (request : HttpRequest)
  (conference : Conference) : list User :=
  let all := users db in
  if form_is_valid FilterUsersForm db conference (GET request)
  then form_apply FilterUsersForm db conference (GET request) all
  else all.

Definition users_list (db : DB) (request : HttpRequest) (pk : Z)
  : result (ListContext UserEntry) :=
  conference ← get_conference_or_404 db pk;
  let users := listed_users db request conference in
  profiles ← dict_comp user_pk user_profile users [];
  authors ← dict_comp user_pk
              (fun user => Ok (user_authorships_in db conference user))
              users [];
  ups ← mapM (user_entry authors) profiles;
  Ok (mkListContext conference ups).

(** *** CSV exports *)

Definition submission_row (db : DB) (request : HttpRequest) (number : Z)
  (sub : Submission) : result row :=
  names ← mapM (fun a => p ← author_profile db a; Ok (get_full_name M p))
            (sub_authors db sub);
  let authors := join ", " names in
  labels ← mapM (fun a => p ← author_profile db a;
                          Ok (get_country_display M p))
             (sub_authors db sub);
  let countries := join ", " (set_order labels) in
  owner ← match created_by sub with
          | Some upk => u ← get_user db upk; Ok (Some u)
          | None => Ok None
          end;
  corr_author ← match owner with
                | Some o => p ← user_profile o; Ok (get_full_name M p)
                | None => Ok EmptyString
                end;
  let corr_email :=
    match owner with Some o => email o | None => EmptyString end in
  let link :=
    if file_attached (review_manuscript sub)
    then build_absolute_uri request
           (urls.reverse download_manuscript (sub_pk sub))
    else EmptyString in
  let stype :=
    match stype sub with
    | Some t => get_language_display M t
    | None => EmptyString
    end in
  Ok [CInt number; CInt (sub_pk sub); CStr (title sub); CStr authors;
      CStr countries; CStr corr_author; CStr corr_email; CStr stype;
      CStr link].

Definition get_submissions_csv (db : DB) (now : datetime)
  (request : HttpRequest) (pk : Z) : result HttpResponse :=
  conference ← get_conference_or_404 db pk;
  let submissions := order_subs_by_pk (submission_set db conference) in
  let timestamp := strftime now in
  body ← write_rows (submission_row db request) 1 submissions;
  Ok {| content_type := "text/csv";
        content_disposition := attachment "submissions" timestamp;
        rows := submissions_header :: body |}.

Definition author_row (number : Z) (user : User) : result row :=
  prof ← user_profile user;
  Ok [CInt number; CInt (user_pk user); CStr (get_full_name M prof);
      CStr (get_full_name_rus M prof); CStr (degree prof);
      CStr (get_country_display M prof); CStr (city prof);
      CStr (affiliation prof); CStr (role prof); CStr (email user)].

(** [[u for u in User.objects.all().order_by('pk')
      if is_author(conference, u)]] *)
Definition author_users (db : DB) (conference : Conference) : list User :=
  List.filter (is_author M db conference) (order_users_by_pk (users db)).

Definition get_authors_csv (db : DB) (now : datetime)
  (request : HttpRequest) (pk : Z) : result HttpResponse :=
  conference ← get_conference_or_404 db pk;
  let users := author_users db conference in
  let timestamp := strftime now in
  body ← write_rows author_row 1 users;
  Ok {| content_type := "text/csv";
        content_disposition := attachment "authors" timestamp;
        rows := authors_header :: body |}.
End views.

(** ** Vocabulary of the specification *)


(** The filter of a request is off when the form rejects the parameters,
    or when there are no parameters and the form narrows nothing then. *)
Definition filter_off {A} (form : FilterForm A) (db : DB)
  (conference : Conference) (request : HttpRequest) : Prop :=
  form_is_valid form db conference (GET request) = false \/
  (GET request = [] /\ empty_is_no_filter form).

(** The creator of a submission, when it has one, is stored with a
    profile. *)
Definition owner_linked (db : DB) (sub : Submission) : Prop :=
  match created_by sub with
  | Some upk => returns (u ← get_user db upk; user_profile u)
  | None => True
  end.

(** Every user the submissions export looks at is stored with a profile:
    the users behind the authors of the conference's submissions, and the
    creators of those submissions that have one. *)
Definition profiles_linked (db : DB) (conference : Conference) : Prop :=
  Forall (fun sub =>
            Forall (fun a => returns (author_profile db a))
                   (sub_authors db sub) /\
            owner_linked db sub)
         (submission_set db conference).

Global Instance returns_dec {A} (r : result A) : Decision (returns r).
Proof.
  destruct r as [a|e]; [left; by exists a | right; intros [a Ha]; discriminate].
Defined.

Global Instance owner_linked_dec db sub : Decision (owner_linked db sub).
Proof. unfold owner_linked. destruct (created_by sub); apply _. Defined.

Global Instance profiles_linked_dec db conference :
  Decision (profiles_linked db conference).
Proof. unfold profiles_linked. apply _. Defined.

(** Every user the authors export writes a row for is stored with a
    profile. *)
Definition authors_have_profiles (M : ModelLayer) (db : DB)
  (conference : Conference) : Prop :=
  Forall (fun u => is_author M db conference u = true -> is_Some (profile u))
         (users db).

(** An authorship of user [upk] scoped to the conference: the Author row
    is the user's and its submission is one of the conference's. *)
Definition authorship_in_conference (db : DB) (conference : Conference)
  (upk : Z) (a : Author) : Prop :=
  author_user a = upk /\
  Exists (fun s => sub_pk s = author_submission a /\
                   sub_conference s = conf_pk conference) (submissions db).

Global Instance authorship_in_conference_dec db conference upk a :
  Decision (authorship_in_conference db conference upk a).
Proof. unfold authorship_in_conference. apply _. Defined.


(** [needle] occurs in [hay]. *)
Definition contains (needle hay : string) : Prop :=
  exists before after, hay = before +:+ needle +:+ after.

(** Scheme, [://], authority, then a path from the root. *)
Definition absolute_url (s : string) : Prop :=
  exists sch authority path,
    s = scheme_name sch +:+ "://" +:+ authority +:+ "/" +:+ path.

(** The value of a decimal digit. *)
Definition digit_value (c : ascii) : option Z :=
  let n := Z.of_nat (nat_of_ascii c) in
  if (48 <=? n) && (n <=? 57) then Some (n - 48) else None.

(** Reads [width] decimal digits off the front of [s]. *)
Fixpoint read_number (width : nat) (acc : Z) (s : string)
  : option (Z * string) :=
  match width, s with
  | O, _ => Some (acc, s)
  | S w, String c s' => d ← digit_value c; read_number w (10 * acc + d) s'
  | S _, EmptyString => None
  end.

(** Reads a stamp of the form YYYYMMDD_HHMM and nothing else. *)
Definition parse_timestamp (s : string) : option datetime :=
  '(y, s) ← read_number 4 0 s;
  '(m, s) ← read_number 2 0 s;
  '(d, s) ← read_number 2 0 s;
  match s with
  | String "_"%char s =>
      '(h, s) ← read_number 2 0 s;
      '(mi, s) ← read_number 2 0 s;
      match s with
      | EmptyString => Some (mkDatetime y m d h mi)
      | String _ _ => None
      end
  | _ => None
  end.

(** The cells of one column, top to bottom. *)
Definition column (i : nat) (lines : list row) : list (option cell) :=
  (fun line : row => line !! i) <$> lines.

(** ** A small site, for running the views *)

Module sample.
Definition models : ModelLayer :=
  {| get_full_name := fun p => first_name p +:+ " " +:+ last_name p;
     get_full_name_rus := fun p => last_name p +:+ " " +:+ first_name p;
     get_country_display := fun p =>
       if bool_decide (country p = "RU") then "Russia"
       else if bool_decide (country p = "SU") then "Russia"
       else country p;
     get_language_display := fun t => language t;
     get_status_display := fun s => status s;
     warnings := fun _ _ => [];
     is_author := fun db c u =>
       bool_decide (0 < length (user_authorships_in db c u))%nat |}.

Definition route : urls.Route :=
  urls.mkRoute "submissions/" "/manuscript/download/".

(** A form with one parameter, [term], matched against the e-mail. *)
Definition users_form : FilterForm User :=
  {| form_is_valid := fun _ _ q => forallb (fun kv => String.eqb kv.1 "term") q;
     form_apply := fun _ _ q records =>
       List.filter (fun u => forallb (fun kv => String.eqb kv.2 (email u)) q)
                   records |}.

(** The same, matched against the title. *)
Definition subs_form : FilterForm Submission :=
  {| form_is_valid := fun _ _ q => forallb (fun kv => String.eqb kv.1 "term") q;
     form_apply := fun _ _ q records =>
       List.filter (fun s => forallb (fun kv => String.eqb kv.2 (title s)) q)
                   records |}.

Definition ann := mkProfile "Ann" "Lee" "a.png" "RU" "Moscow" "MSU" "PhD" "Prof".
Definition bob := mkProfile "Bob" "Ray" "b.png" "SU" "Kiev" "KPI" "MSc" "Eng".
Definition cy := mkProfile "Cy" "Dow" "c.png" "US" "Boston" "MIT" "PhD" "Stud".

(** Conference 1 holds submissions 5 and 3, fetched in that order;
    submission 3 has no creator and no manuscript.  User 4 wrote
    nothing. *)
Definition db : DB :=
  {| conferences := [mkConference 1 "C1"; mkConference 2 "C2"];
     users := [mkUser 7 "bob@x.org" (Some bob); mkUser 2 "ann@x.org" (Some ann);
               mkUser 9 "cy@x.org" (Some cy); mkUser 4 "dee@x.org" (Some ann)];
     submissions :=
       [mkSubmission 5 "T5" "A5" "SUBMIT" 1 (Some 2) "m5.pdf"
                     (Some (mkSType "EN"));
        mkSubmission 3 "T3" "A3" "SUBMIT" 1 None EmptyString None;
        mkSubmission 4 "T4" "A4" "SUBMIT" 2 (Some 9) "m4.pdf" None];
     authorships := [mkAuthor 1 2 5; mkAuthor 2 7 5; mkAuthor 3 9 5;
                     mkAuthor 4 7 3; mkAuthor 5 9 4] |}.

(** The same site where user 7, an author in conference 1, has no
    profile. *)
Definition db_no_profile : DB :=
  {| conferences := conferences db;
     users := [mkUser 7 "bob@x.org" None; mkUser 2 "ann@x.org" (Some ann)];
     submissions := submissions db;
     authorships := [mkAuthor 1 2 5; mkAuthor 4 7 3] |}.

Definition conference : Conference := mkConference 1 "C1".
Definition request : HttpRequest := mkRequest [] HTTPS "conf.example.org".
Definition bad_request : HttpRequest :=
  mkRequest [("page", "x")] HTTPS "conf.example.org".
Definition now : datetime := mkDatetime 2019 3 7 9 5.
End sample.

(** ** The pages without a listing *)

(** [get_object_or_404(User, pk=user_pk)] *)
Definition get_user_or_404 (db : DB) (pk : Z) : result User :=
  match List.find (fun u => user_pk u =? pk) (users db) with
  | Some u => Ok u
  | None => Raise Http404
  end.

(** The context of the dashboard page. *)
Record DashboardContext : Type := mkDashboardContext {
  dash_conference : Conference;
}.

Definition dashboard (db : DB) (request : HttpRequest) (pk : Z)
  : result DashboardContext :=
  conference ← get_conference_or_404 db pk;
  Ok {| dash_conference := conference |}.

(** The context of the page of one user. *)
Record UserDetailsContext : Type := mkUserDetailsContext {
  ud_conference : Conference;
  ud_member : User;
}.

Definition user_details (db : DB) (request : HttpRequest) (pk upk : Z)
  : result UserDetailsContext :=
  conference ← get_conference_or_404 db pk;
  user ← get_user_or_404 db upk;
  Ok {| ud_conference := conference; ud_member := user |}.

(** ** More vocabulary *)

(** The entry of one submission, as the template receives it. *)
Definition shaped_submission (M : ModelLayer) (db : DB) (sub : Submission)
  : SubmissionEntry :=
  let prs := author_profile_values db sub in
  {| se_object := sub;
     se_warnings := warnings M db sub;
     se_title := title sub;
     se_abstract := abstract sub;
     se_authors := (fun v => (display_name v, v.2)) <$> prs;
     se_authors_display := join ", " (display_name <$> prs);
     se_pk := sub_pk sub;
     se_status := status sub;
     se_status_display := get_status_display M sub |}.

(** The entry of one user with its profile. *)
Definition shaped_user (M : ModelLayer) (db : DB) (conference : Conference)
  (user : User) (prof : Profile) : UserEntry :=
  let au := user_authorships_in db conference user in
  {| ue_pk := user_pk user;
     ue_name := get_full_name M prof;
     ue_name_rus := get_full_name_rus M prof;
     ue_avatar := avatar prof;
     ue_country := country prof;
     ue_city := city prof;
     ue_affiliation := affiliation prof;
     ue_degree := degree prof;
     ue_role := role prof;
     num_submissions := length au;
     is_participant := bool_decide (0 < length au)%nat |}.

(** No conference is stored under [pk]. *)
Definition no_conference (db : DB) (pk : Z) : Prop :=
  Forall (fun c => conf_pk c <> pk) (conferences db).

(** No user is stored under [pk]. *)
Definition no_user (db : DB) (pk : Z) : Prop :=
  Forall (fun u => user_pk u <> pk) (users db).

Module fixtures.
(** A form whose filter goes through a join and returns a matching user
    once per match: here every user twice. *)
Definition twice_form : FilterForm User :=
  {| form_is_valid := fun _ _ _ => true;
     form_apply := fun _ _ _ records => (records ++ records)%list |}.

(** A request that asks for the user with one e-mail address. *)
Definition term_request : HttpRequest :=
  mkRequest [("term", "ann@x.org")] HTTPS "conf.example.org".

Definition later : datetime := mkDatetime 2019 3 7 9 6.


End fixtures.

(** * Facts about the primitives *)

Lemma string_app_assoc (a b c : string) : (a +:+ b) +:+ c = a +:+ b +:+ c.
Proof.
  induction a as [|x a IH]; [done|].
  change (String x ((a +:+ b) +:+ c) = String x (a +:+ b +:+ c)).
  by rewrite IH.
Qed.

Section result_facts.
Context {A B : Type}.

Lemma bind_Ok (r : result A) (k : A -> result B) b :
  r ≫= k = Ok b <-> exists a, r = Ok a /\ k a = Ok b.
Proof.
  destruct r as [a|e]; simpl; split.
  - eauto.
  - intros (a' & [= <-] & Hk). exact Hk.
  - discriminate.
  - intros (a' & [=] & _).
Qed.

Lemma bind_Ok_l (a : A) (k : A -> result B) : Ok a ≫= k = k a.
Proof. reflexivity. Qed.

Lemma bind_returns (r : result A) (k : A -> result B) :
  returns (r ≫= k) <-> exists a, r = Ok a /\ returns (k a).
Proof.
  unfold returns. split.
  - intros [b (a & Ha & Hk)%bind_Ok]. eauto.
  - intros (a & -> & b & Hk). by exists b.
Qed.

End result_facts.

Section mapM_facts.
Context {A B : Type}.

Lemma mapM_cons (f : A -> result B) x l :
  mapM f (x :: l) = y ← f x; k ← mapM f l; Ok (y :: k).
Proof. reflexivity. Qed.

Lemma mapM_Ok (f : A -> result B) l k :
  mapM f l = Ok k <-> Forall2 (fun x y => f x = Ok y) l k.
Proof.
  revert k. induction l as [|x l IH]; intros k.
  - split; [intros [= <-]; constructor | by inversion 1].
  - rewrite mapM_cons, bind_Ok. split.
    + intros (y & Hy & Hrest). apply bind_Ok in Hrest as (k' & Hk' & [= <-]).
      constructor; [done | by apply IH].
    + inversion 1 as [|? y ? k' Hy Hrest]; subst. exists y. split; [done|].
      apply bind_Ok. exists k'. split; [by apply IH | done].
Qed.

Lemma mapM_returns (f : A -> result B) l :
  Forall (fun x => returns (f x)) l -> returns (mapM f l).
Proof.
  induction 1 as [|x l [y Hy] _ [k Hk]].
  - by exists [].
  - exists (y :: k). apply mapM_Ok. constructor; [done | by apply mapM_Ok].
Qed.

End mapM_facts.

(** Decomposing a view that returned: each step it went through
    returned. *)
Ltac inv_bind H :=
  repeat match type of H with
  | _ ≫= _ = Ok _ =>
      let a := fresh "a" in let Ha := fresh "H" a in
      apply bind_Ok in H as (a & Ha & H)
  end.

Section write_rows_facts.
Context {A : Type} (mk_row : Z -> A -> result row).

Lemma write_rows_cons number r records :
  write_rows mk_row number (r :: records) =
  line ← mk_row number r;
  lines ← write_rows mk_row (number + 1) records;
  Ok (line :: lines).
Proof. reflexivity. Qed.

Lemma write_rows_length number records lines :
  write_rows mk_row number records = Ok lines ->
  length lines = length records.
Proof.
  revert number lines. induction records as [|r records IH];
    intros number lines.
  - by intros [= <-].
  - rewrite write_rows_cons. intros H. inv_bind H. injection H as <-.
    simpl. f_equal. eauto.
Qed.

(** Row [i] is made from record [i] with number [number + i]. *)
Lemma write_rows_lookup number records lines (i : nat) r :
  write_rows mk_row number records = Ok lines ->
  records !! i = Some r ->
  exists line, lines !! i = Some line /\ mk_row (number + Z.of_nat i) r = Ok line.
Proof.
  revert number lines i. induction records as [|r0 records IH];
    intros number lines i; [done|].
  rewrite write_rows_cons. intros H Hi. inv_bind H. injection H as <-.
  destruct i as [|i]; simpl in *.
  - injection Hi as ->. exists a. by rewrite Z.add_0_r.
  - destruct (IH _ _ _ Ha0 Hi) as (line & ? & Hline). exists line.
    split; [done|]. rewrite <- Hline. f_equal. lia.
Qed.

Lemma write_rows_lookup_inv number records lines (i : nat) line :
  write_rows mk_row number records = Ok lines ->
  lines !! i = Some line ->
  exists r, records !! i = Some r /\ mk_row (number + Z.of_nat i) r = Ok line.
Proof.
  intros H Hi.
  assert (is_Some (records !! i)) as [r Hr].
  { apply lookup_lt_is_Some. rewrite <- (write_rows_length _ _ _ H).
    by eapply lookup_lt_Some. }
  destruct (write_rows_lookup _ _ _ _ _ H Hr) as (line' & ? & ?).
  exists r. split; [done|]. congruence.
Qed.

Lemma write_rows_returns number records :
  (forall n r, r ∈ records -> returns (mk_row n r)) ->
  returns (write_rows mk_row number records).
Proof.
  revert number. induction records as [|r records IH]; intros number Hall.
  - by exists [].
  - rewrite write_rows_cons. apply bind_returns. destruct (Hall number r) as [line Hline];
      [by left|].
    exists line. split; [done|].
    destruct (IH (number + 1)) as [lines Hlines].
    { intros. apply Hall. by right. }
    rewrite Hlines. by eexists.
Qed.

(** An export that raises does so while making one of its rows. *)
Lemma write_rows_Raise number records e :
  write_rows mk_row number records = Raise e ->
  exists (i : nat) r,
    records !! i = Some r /\ mk_row (number + Z.of_nat i) r = Raise e.
Proof.
  revert number. induction records as [|r records IH]; intros number.
  - discriminate.
  - rewrite write_rows_cons. destruct (mk_row number r) as [line|e'] eqn:Hr.
    + rewrite bind_Ok_l.
      destruct (write_rows mk_row (number + 1) records) as [lines|e'] eqn:Hw.
      * discriminate.
      * intros [= ->]. destruct (IH _ Hw) as (i & r' & Hi & Hr').
        exists (S i), r'. split; [done|]. rewrite <- Hr'. f_equal. lia.
    + intros [= ->]. exists 0%nat, r. by rewrite Z.add_0_r.
Qed.

(** A column that carries a field of the record. *)
Lemma write_rows_field (j : nat) (g : A -> cell) number records lines :
  (forall n r line, mk_row n r = Ok line -> line !! j = Some (g r)) ->
  write_rows mk_row number records = Ok lines ->
  column j lines = (fun r => Some (g r)) <$> records.
Proof.
  intros Hg. revert number lines.
  induction records as [|r records IH]; intros number lines.
  - by intros [= <-].
  - rewrite write_rows_cons. intros H. inv_bind H. injection H as <-.
    unfold column in *. rewrite !fmap_cons. f_equal; eauto.
Qed.

(** A column that carries the running number. *)
Lemma write_rows_numbers (j : nat) number records lines :
  (forall n r line, mk_row n r = Ok line -> line !! j = Some (CInt n)) ->
  write_rows mk_row number records = Ok lines ->
  column j lines =
  (fun n => Some (CInt n)) <$> seqZ number (Z.of_nat (length records)).
Proof.
  intros Hg. revert number lines.
  induction records as [|r records IH]; intros number lines.
  - by intros [= <-].
  - rewrite write_rows_cons. intros H. inv_bind H. injection H as <-.
    rewrite seqZ_cons by (simpl; lia).
    unfold column in *. rewrite !fmap_cons. f_equal; [by eauto|].
    rewrite (IH _ _ Ha0). do 2 f_equal; simpl; lia.
Qed.
End write_rows_facts.

(** * Ordering by primary key *)

Global Instance sub_le_total : Total sub_le.
Proof. intros x y. unfold sub_le. lia. Qed.
Global Instance sub_le_trans : Transitive sub_le.
Proof. intros x y z. unfold sub_le. lia. Qed.
Global Instance user_le_total : Total user_le.
Proof. intros x y. unfold user_le. lia. Qed.
Global Instance user_le_trans : Transitive user_le.
Proof. intros x y z. unfold user_le. lia. Qed.

Lemma order_subs_by_pk_perm l : order_subs_by_pk l ≡ₚ l.
Proof. apply merge_sort_Permutation. Qed.

Lemma order_subs_by_pk_sorted l : Sorted Z.le (sub_pk <$> order_subs_by_pk l).
Proof.
  apply (Sorted_fmap sub_pk sub_le Z.le); [done|].
  apply (Sorted_merge_sort sub_le).
Qed.

Lemma order_users_by_pk_perm l : order_users_by_pk l ≡ₚ l.
Proof. apply merge_sort_Permutation. Qed.

Lemma order_users_by_pk_sorted l : Sorted Z.le (user_pk <$> order_users_by_pk l).
Proof.
  apply (Sorted_fmap user_pk user_le Z.le); [done|].
  apply (Sorted_merge_sort user_le).
Qed.

(** Dropping rows keeps the rest in order. *)
Lemma Sorted_le_filter (f : User -> bool) l :
  Sorted Z.le (user_pk <$> l) -> Sorted Z.le (user_pk <$> List.filter f l).
Proof.
  intros H%Sorted_StronglySorted; [|intros ???; lia].
  apply StronglySorted_Sorted.
  induction l as [|u l IH]; simpl in *; [constructor|].
  apply StronglySorted_inv in H as [Hl Hu].
  destruct (f u); simpl; [|by auto].
  constructor; [by auto|].
  rewrite Forall_fmap in *. rewrite Forall_forall in *.
  intros v [Hv _]%list_elem_of_In%filter_In. apply Hu. by apply list_elem_of_In.
Qed.

(** * The submissions export *)

Section submissions_csv.
Context (M : ModelLayer) (route : urls.Route).
Context (set_order : list string -> list string).
Context (db : DB) (now : datetime) (request : HttpRequest).

Local Abbreviation row_of := (submission_row M route set_order db request).
Local Abbreviation export :=
  (get_submissions_csv M route set_order db now request).

(** What a row that was written consists of. *)
Lemma submission_row_Ok number sub line :
  row_of number sub = Ok line ->
  exists names labels corr_author corr_email,
    mapM (fun a => p ← author_profile db a; Ok (get_full_name M p))
         (sub_authors db sub) = Ok names /\
    mapM (fun a => p ← author_profile db a; Ok (get_country_display M p))
         (sub_authors db sub) = Ok labels /\
    (created_by sub = None ->
       corr_author = EmptyString /\ corr_email = EmptyString) /\
    (forall upk, created_by sub = Some upk ->
       exists u p, get_user db upk = Ok u /\ profile u = Some p /\
         corr_author = get_full_name M p /\ corr_email = email u) /\
    line =
      [CInt number; CInt (sub_pk sub); CStr (title sub);
       CStr (join ", " names); CStr (join ", " (set_order labels));
       CStr corr_author; CStr corr_email;
       CStr (match stype sub with
             | Some t => get_language_display M t
             | None => EmptyString
             end);
       CStr (if file_attached (review_manuscript sub)
             then build_absolute_uri request
                    (urls.reverse route (sub_pk sub))
             else EmptyString)].
Proof.
  unfold submission_row. intros H.
  apply bind_Ok in H as (names & Hnames & H).
  apply bind_Ok in H as (labels & Hlabels & H).
  apply bind_Ok in H as (owner & Howner & H).
  apply bind_Ok in H as (corr_author & Hcorr & H).
  injection H as <-.
  exists names, labels, corr_author,
    (match owner with Some o => email o | None => EmptyString end).
  split; [done|]. split; [done|]. split; [|split; [|done]].
  - intros Hnone. rewrite Hnone in Howner. injection Howner as <-.
    by injection Hcorr as <-.
  - intros upk Hsome. rewrite Hsome in Howner.
    apply bind_Ok in Howner as (u & Hu & [= <-]).
    apply bind_Ok in Hcorr as (p & Hp & [= <-]).
    exists u, p. unfold user_profile in Hp.
    by destruct (profile u) as [p'|]; simplify_eq.
Qed.

Lemma submission_row_returns number sub :
  (forall a, a ∈ sub_authors db sub -> returns (author_profile db a)) ->
  (forall upk, created_by sub = Some upk ->
     exists u, get_user db upk = Ok u /\ returns (user_profile u)) ->
  returns (row_of number sub).
Proof.
  intros Hauthors Howner. unfold submission_row.
  assert (forall g : Profile -> string,
    returns (mapM (fun a => p ← author_profile db a; Ok (g p))
               (sub_authors db sub))) as Hmap.
  { intros g. apply mapM_returns, Forall_forall. intros a Ha.
    destruct (Hauthors a Ha) as [p ->]. by eexists. }
  destruct (Hmap (get_full_name M)) as [names ->].
  destruct (Hmap (get_country_display M)) as [labels ->].
  rewrite !bind_Ok_l.
  destruct (created_by sub) as [upk|].
  - destruct (Howner upk eq_refl) as (u & -> & p & Hp).
    rewrite !bind_Ok_l, Hp, !bind_Ok_l. by eexists.
  - rewrite !bind_Ok_l. by eexists.
Qed.

Lemma get_submissions_csv_Ok pk conference resp :
  get_conference_or_404 db pk = Ok conference ->
  export pk = Ok resp ->
  exists body,
    write_rows row_of 1
      (order_subs_by_pk (submission_set db conference)) = Ok body /\
    resp = {| content_type := "text/csv";
              content_disposition :=
                attachment "submissions" (strftime now);
              rows := submissions_header :: body |}.
Proof.
  unfold get_submissions_csv. intros -> H. rewrite bind_Ok_l in H.
  apply bind_Ok in H as (body & Hbody & [= <-]). by exists body.
Qed.

Lemma get_submissions_csv_returns pk conference :
  get_conference_or_404 db pk = Ok conference ->
  profiles_linked db conference ->
  returns (export pk).
Proof.
  unfold get_submissions_csv. intros -> Hlinked.
  rewrite bind_Ok_l. apply bind_returns.
  destruct (write_rows_returns row_of 1
              (order_subs_by_pk (submission_set db conference)))
    as [body Hbody].
  - intros n sub Hsub. rewrite order_subs_by_pk_perm in Hsub.
    unfold profiles_linked in Hlinked. rewrite Forall_forall in Hlinked.
    destruct (Hlinked sub Hsub) as [Hauthors Howner].
    rewrite Forall_forall in Hauthors.
    apply submission_row_returns; [done|].
    intros upk Hupk. unfold owner_linked in Howner. rewrite Hupk in Howner.
    apply bind_returns in Howner as (u & Hu & Hp). by exists u.
  - exists body. split; [done | by eexists].
Qed.

(** The export returns only if the profiles it reads are there. *)
Lemma get_submissions_csv_returns_inv pk conference :
  get_conference_or_404 db pk = Ok conference ->
  returns (export pk) ->
  profiles_linked db conference.
Proof.
  intros Hconf [resp Hresp].
  destruct (get_submissions_csv_Ok _ _ _ Hconf Hresp) as (body & Hbody & _).
  unfold profiles_linked. apply Forall_forall. intros sub Hsub.
  rewrite <- (order_subs_by_pk_perm (submission_set db conference)) in Hsub.
  apply list_elem_of_lookup in Hsub as [i Hi].
  destruct (write_rows_lookup _ _ _ _ _ _ Hbody Hi) as (line & _ & Hrow).
  apply submission_row_Ok in Hrow
    as (names & labels & ca & ce & Hnames & _ & _ & Howner & _).
  split.
  - apply mapM_Ok in Hnames. apply Forall_forall. intros a Ha.
    apply list_elem_of_lookup in Ha as [j Hj].
    destruct (Forall2_lookup_l _ _ _ _ _ Hnames Hj) as (name & _ & Hname).
    apply bind_Ok in Hname as (p & Hp & _). by exists p.
  - unfold owner_linked. destruct (created_by sub) as [upk|]; [|done].
    destruct (Howner upk eq_refl) as (u & p & Hu & Hp & _).
    rewrite Hu, bind_Ok_l. exists p. unfold user_profile. by rewrite Hp.
Qed.
End submissions_csv.

Lemma remove_dups_set_iteration : set_iteration remove_dups.
Proof.
  intros labels. split; [apply NoDup_remove_dups | apply elem_of_remove_dups].
Qed.

(** C1: with N submissions in the conference, the submissions export
    writes N+1 rows: the header, then one row per submission; the first
    column counts 1..N and the identifiers in the second column are those
    of the conference's submissions in ascending order, whatever the fetch
    order was.  The users the export reads are stored with a profile. *)
Theorem get_submissions_csv_rows (M : ModelLayer) (route : urls.Route)
  (set_order : list string -> list string) (db : DB) (now : datetime)
  (request : HttpRequest) (pk : Z) (conference : Conference) :
  get_conference_or_404 db pk = Ok conference ->
  profiles_linked db conference ->
  exists resp ids,
    get_submissions_csv M route set_order db now request pk = Ok resp /\
    length (rows resp) = S (length (submission_set db conference)) /\
    rows resp !! 0%nat = Some submissions_header /\
    column 0 (tail (rows resp)) =
      (fun n => Some (CInt n)) <$>
        seqZ 1 (Z.of_nat (length (submission_set db conference))) /\
    column 1 (tail (rows resp)) = (fun i => Some (CInt i)) <$> ids /\
    Sorted Z.le ids /\
    ids ≡ₚ sub_pk <$> submission_set db conference.
Proof.
  intros Hconf Hlinked.
  destruct (get_submissions_csv_returns M route set_order db now request
              pk conference Hconf Hlinked) as [resp Hresp].
  destruct (get_submissions_csv_Ok _ _ _ _ _ _ _ _ _ Hconf Hresp)
    as (body & Hbody & ->).
  pose proof (order_subs_by_pk_perm (submission_set db conference)) as Hperm.
  eexists; exists (sub_pk <$> order_subs_by_pk (submission_set db conference)).
  split; [done|]. simpl. repeat split.
  - f_equal. rewrite (write_rows_length _ _ _ _ Hbody). by rewrite Hperm.
  - rewrite <- Hperm at 1.
    apply (write_rows_numbers _ 0 _ _ _) in Hbody; [done|].
    intros n r line (?&?&?&?&_&_&_&_&->)%submission_row_Ok. done.
  - rewrite <- list_fmap_compose.
    apply (write_rows_field _ 1 (fun r => CInt (sub_pk r)) _ _ _) in Hbody;
      [done|].
    intros n r line (?&?&?&?&_&_&_&_&->)%submission_row_Ok. done.
  - apply order_subs_by_pk_sorted.
  - by rewrite Hperm.
Qed.

Lemma get_submissions_csv_rows_witness :
  get_conference_or_404 sample.db 1 = Ok sample.conference /\
  profiles_linked sample.db sample.conference /\
  exists resp ids,
    get_submissions_csv sample.models sample.route remove_dups sample.db
      sample.now sample.request 1 = Ok resp /\
    length (rows resp) = S (length (submission_set sample.db sample.conference)) /\
    rows resp !! 0%nat = Some submissions_header /\
    column 0 (tail (rows resp)) =
      (fun n => Some (CInt n)) <$>
        seqZ 1 (Z.of_nat (length (submission_set sample.db sample.conference))) /\
    column 1 (tail (rows resp)) = (fun i => Some (CInt i)) <$> ids /\
    Sorted Z.le ids /\
    ids ≡ₚ sub_pk <$> submission_set sample.db sample.conference.
Proof.
  assert (profiles_linked sample.db sample.conference) as Hlinked.
  { apply (bool_decide_unpack _). vm_compute. exact I. }
  split; [reflexivity|]. split; [exact Hlinked|].
  apply get_submissions_csv_rows; [reflexivity | exact Hlinked].
Defined.

(** The example of the specification: submissions 5 and 3 of conference 1,
    fetched in that order, are written as row 1 for submission 3 and row 2
    for submission 5. *)
Example get_submissions_csv_5_3 :
  (fun resp => take 2 <$> rows resp) <$>
    match get_submissions_csv sample.models sample.route remove_dups
            sample.db sample.now sample.request 1 with
    | Ok resp => Some resp
    | Raise _ => None
    end =
  Some [[CStr "#"; CStr "ID"]; [CInt 1; CInt 3]; [CInt 2; CInt 5]].
Proof. vm_compute. reflexivity. Qed.

(** C4: in every submission row of the export the last column is the
    empty string when no manuscript is attached, and otherwise the
    absolute URL of the download route for that submission: scheme and
    host of the request, then the route's path with the identifier in it. *)
Theorem get_submissions_csv_link (M : ModelLayer) (route : urls.Route)
  (set_order : list string -> list string) (db : DB) (now : datetime)
  (request : HttpRequest) (pk : Z) (conference : Conference)
  (resp : HttpResponse) :
  get_conference_or_404 db pk = Ok conference ->
  get_submissions_csv M route set_order db now request pk = Ok resp ->
  forall (i : nat) (line : row),
    rows resp !! S i = Some line ->
    exists sub link,
      sub ∈ submission_set db conference /\
      line !! 1%nat = Some (CInt (sub_pk sub)) /\
      line !! 8%nat = Some (CStr link) /\
      length line = 9%nat /\
      (file_attached (review_manuscript sub) = false -> link = EmptyString) /\
      (file_attached (review_manuscript sub) = true ->
         link = scheme_name (scheme request) +:+ "://" +:+ host request +:+
                "/" +:+ urls.route_prefix route +:+ pretty (sub_pk sub) +:+
                urls.route_suffix route /\
         absolute_url link /\
         contains (pretty (sub_pk sub)) link).
Proof.
  intros Hconf Hresp i line Hline.
  destruct (get_submissions_csv_Ok _ _ _ _ _ _ _ _ _ Hconf Hresp)
    as (body & Hbody & ->).
  simpl in Hline.
  destruct (write_rows_lookup_inv _ _ _ _ _ _ Hbody Hline) as (sub & Hsub & Hrow).
  apply submission_row_Ok in Hrow as (?&?&?&?&_&_&_&_&->).
  eexists sub, _. split.
  { rewrite <- (order_subs_by_pk_perm (submission_set db conference)).
    by eapply list_elem_of_lookup_2. }
  do 3 (split; [reflexivity|]).
  destruct (file_attached (review_manuscript sub)); split; try done.
  intros _. split; [reflexivity|]. split.
  - by exists (scheme request), (host request),
      (urls.route_prefix route +:+ pretty (sub_pk sub) +:+
       urls.route_suffix route).
  - exists (scheme_name (scheme request) +:+ "://" +:+ host request +:+
            "/" +:+ urls.route_prefix route), (urls.route_suffix route).
    unfold build_absolute_uri, urls.reverse.
    by rewrite !string_app_assoc.
Qed.

Lemma get_submissions_csv_link_witness :
  get_conference_or_404 sample.db 1 = Ok sample.conference /\
  exists resp,
    get_submissions_csv sample.models sample.route remove_dups sample.db
      sample.now sample.request 1 = Ok resp /\
    forall (i : nat) (line : row),
      rows resp !! S i = Some line ->
      exists sub link,
        sub ∈ submission_set sample.db sample.conference /\
        line !! 1%nat = Some (CInt (sub_pk sub)) /\
        line !! 8%nat = Some (CStr link) /\
        length line = 9%nat /\
        (file_attached (review_manuscript sub) = false ->
           link = EmptyString) /\
        (file_attached (review_manuscript sub) = true ->
           link = scheme_name (scheme sample.request) +:+ "://" +:+
                  host sample.request +:+ "/" +:+
                  urls.route_prefix sample.route +:+ pretty (sub_pk sub) +:+
                  urls.route_suffix sample.route /\
           absolute_url link /\
           contains (pretty (sub_pk sub)) link).
Proof.
  split; [reflexivity|]. eexists. split; [vm_compute; reflexivity|].
  apply (get_submissions_csv_link sample.models sample.route remove_dups
           sample.db sample.now sample.request 1 sample.conference _ eq_refl).
  vm_compute. reflexivity.
Defined.

(** C5: a submission of the conference that has no creator does not stop
    the export, and its row carries the empty string both as name and as
    e-mail of the corresponding author. *)
Theorem get_submissions_csv_no_owner (M : ModelLayer) (route : urls.Route)
  (set_order : list string -> list string) (db : DB) (now : datetime)
  (request : HttpRequest) (pk : Z) (conference : Conference) :
  get_conference_or_404 db pk = Ok conference ->
  profiles_linked db conference ->
  exists resp,
    get_submissions_csv M route set_order db now request pk = Ok resp /\
    forall sub,
      sub ∈ submission_set db conference ->
      created_by sub = None ->
      exists (i : nat) (line : row),
        rows resp !! S i = Some line /\
        line !! 1%nat = Some (CInt (sub_pk sub)) /\
        line !! 5%nat = Some (CStr EmptyString) /\
        line !! 6%nat = Some (CStr EmptyString).
Proof.
  intros Hconf Hlinked.
  destruct (get_submissions_csv_returns M route set_order db now request
              pk conference Hconf Hlinked) as [resp Hresp].
  exists resp. split; [done|].
  destruct (get_submissions_csv_Ok _ _ _ _ _ _ _ _ _ Hconf Hresp)
    as (body & Hbody & ->).
  intros sub Hsub Hnone.
  rewrite <- (order_subs_by_pk_perm (submission_set db conference)) in Hsub.
  apply list_elem_of_lookup in Hsub as [i Hi].
  destruct (write_rows_lookup _ _ _ _ _ _ Hbody Hi) as (line & Hline & Hrow).
  apply submission_row_Ok in Hrow as (?&?&ca&ce&_&_&Hempty&_&->).
  destruct (Hempty Hnone) as [-> ->]. by exists i; eexists.
Qed.

Lemma get_submissions_csv_no_owner_witness :
  get_conference_or_404 sample.db 1 = Ok sample.conference /\
  profiles_linked sample.db sample.conference /\
  exists resp,
    get_submissions_csv sample.models sample.route remove_dups sample.db
      sample.now sample.request 1 = Ok resp /\
    forall sub,
      sub ∈ submission_set sample.db sample.conference ->
      created_by sub = None ->
      exists (i : nat) (line : row),
        rows resp !! S i = Some line /\
        line !! 1%nat = Some (CInt (sub_pk sub)) /\
        line !! 5%nat = Some (CStr EmptyString) /\
        line !! 6%nat = Some (CStr EmptyString).
Proof.
  assert (profiles_linked sample.db sample.conference) as Hlinked.
  { apply (bool_decide_unpack _). vm_compute. exact I. }
  split; [reflexivity|]. split; [exact Hlinked|].
  apply get_submissions_csv_no_owner; [reflexivity | exact Hlinked].
Defined.

(** C8: in every submission row the COUNTRY cell is the [", "]-join of a
    list without repetitions that holds exactly the country labels of the
    submission's authors: each distinct label once, in whatever order the
    set is iterated. *)
Theorem get_submissions_csv_countries (M : ModelLayer) (route : urls.Route)
  (set_order : list string -> list string) (db : DB) (now : datetime)
  (request : HttpRequest) (pk : Z) (conference : Conference)
  (resp : HttpResponse) :
  set_iteration set_order ->
  get_conference_or_404 db pk = Ok conference ->
  get_submissions_csv M route set_order db now request pk = Ok resp ->
  forall (i : nat) (line : row),
    rows resp !! S i = Some line ->
    exists sub labels shown,
      sub ∈ submission_set db conference /\
      line !! 1%nat = Some (CInt (sub_pk sub)) /\
      Forall2 (fun a label =>
                 exists p, author_profile db a = Ok p /\
                           label = get_country_display M p)
              (sub_authors db sub) labels /\
      line !! 4%nat = Some (CStr (join ", " shown)) /\
      NoDup shown /\
      shown ≡ₚ remove_dups labels.
Proof.
  intros Hset Hconf Hresp i line Hline.
  destruct (get_submissions_csv_Ok _ _ _ _ _ _ _ _ _ Hconf Hresp)
    as (body & Hbody & ->).
  simpl in Hline.
  destruct (write_rows_lookup_inv _ _ _ _ _ _ Hbody Hline) as (sub & Hsub & Hrow).
  apply submission_row_Ok in Hrow as (?&labels&?&?&_&Hlabels&_&_&->).
  exists sub, labels, (set_order labels).
  destruct (Hset labels) as [Hnodup Hmem].
  split.
  { rewrite <- (order_subs_by_pk_perm (submission_set db conference)).
    by eapply list_elem_of_lookup_2. }
  split; [reflexivity|]. split.
  { apply mapM_Ok in Hlabels. eapply Forall2_impl; [exact Hlabels|].
    intros a label (p & Hp & [= <-])%bind_Ok. by exists p. }
  split; [reflexivity|]. split; [done|].
  apply NoDup_Permutation; [done | apply NoDup_remove_dups |].
  intros label. by rewrite Hmem, elem_of_remove_dups.
Qed.

Lemma get_submissions_csv_countries_witness :
  set_iteration remove_dups /\
  get_conference_or_404 sample.db 1 = Ok sample.conference /\
  exists resp,
    get_submissions_csv sample.models sample.route remove_dups sample.db
      sample.now sample.request 1 = Ok resp /\
    forall (i : nat) (line : row),
      rows resp !! S i = Some line ->
      exists sub labels shown,
        sub ∈ submission_set sample.db sample.conference /\
        line !! 1%nat = Some (CInt (sub_pk sub)) /\
        Forall2 (fun a label =>
                   exists p, author_profile sample.db a = Ok p /\
                             label = get_country_display sample.models p)
                (sub_authors sample.db sub) labels /\
        line !! 4%nat = Some (CStr (join ", " shown)) /\
        NoDup shown /\
        shown ≡ₚ remove_dups labels.
Proof.
  split; [exact remove_dups_set_iteration|]. split; [reflexivity|].
  eexists. split; [vm_compute; reflexivity|].
  apply (get_submissions_csv_countries sample.models sample.route remove_dups
           sample.db sample.now sample.request 1 sample.conference _
           remove_dups_set_iteration eq_refl).
  vm_compute. reflexivity.
Defined.

(** Submission 5 has two authors labelled Russia (stored under different
    country codes) and one labelled US: the cell shows each label once. *)
Example get_submissions_csv_countries_5 :
  (fun resp => (fun line : row => line !! 4%nat) <$> rows resp) <$>
    match get_submissions_csv sample.models sample.route remove_dups
            sample.db sample.now sample.request 1 with
    | Ok resp => Some resp
    | Raise _ => None
    end =
  Some [Some (CStr "COUNTRY"); Some (CStr "Russia");
        Some (CStr "Russia, US")].
Proof. vm_compute. reflexivity. Qed.

(** * The authors export *)

Lemma filter_perm {A} (f : A -> bool) (l l' : list A) :
  l ≡ₚ l' -> List.filter f l ≡ₚ List.filter f l'.
Proof.
  intros Hperm.
  induction Hperm as [|x l l' _ IH|x y l|l l' l'' _ IH1 _ IH2]; simpl.
  - done.
  - destruct (f x); by rewrite IH.
  - destruct (f x), (f y); try done. apply perm_swap.
  - by etrans.
Qed.

Section authors_csv.
Context (M : ModelLayer) (db : DB) (now : datetime) (request : HttpRequest).

Lemma author_row_Ok number user line :
  author_row M number user = Ok line <->
  exists prof,
    profile user = Some prof /\
    line = [CInt number; CInt (user_pk user); CStr (get_full_name M prof);
            CStr (get_full_name_rus M prof); CStr (degree prof);
            CStr (get_country_display M prof); CStr (city prof);
            CStr (affiliation prof); CStr (role prof); CStr (email user)].
Proof.
  unfold author_row, user_profile. destruct (profile user) as [prof|].
  - rewrite bind_Ok_l. split.
    + intros [= <-]. by exists prof.
    + by intros (? & [= <-] & ->).
  - split; [discriminate | by intros (? & [=] & _)].
Qed.

Lemma author_row_Raise number user e :
  author_row M number user = Raise e <->
  profile user = None /\ e = RelatedObjectDoesNotExist.
Proof.
  unfold author_row, user_profile. destruct (profile user) as [prof|].
  - rewrite bind_Ok_l. split; [discriminate | by intros [[=] _]].
  - split; [by intros [= <-] | by intros [_ ->]].
Qed.

Lemma elem_of_author_users conference u :
  u ∈ author_users M db conference <->
  u ∈ users db /\ is_author M db conference u = true.
Proof.
  unfold author_users.
  rewrite list_elem_of_In, filter_In, <- list_elem_of_In.
  by rewrite order_users_by_pk_perm.
Qed.

Lemma author_users_perm conference :
  author_users M db conference ≡ₚ
  List.filter (is_author M db conference) (users db).
Proof. apply filter_perm, order_users_by_pk_perm. Qed.

Lemma get_authors_csv_unfold pk conference :
  get_conference_or_404 db pk = Ok conference ->
  get_authors_csv M db now request pk =
  body ← write_rows (author_row M) 1 (author_users M db conference);
  Ok {| content_type := "text/csv";
        content_disposition := attachment "authors" (strftime now);
        rows := authors_header :: body |}.
Proof. unfold get_authors_csv. by intros ->. Qed.

(** The export returns exactly when every user it writes a row for has
    a profile; the only exception it raises otherwise is the one of the
    missing profile. *)
Lemma get_authors_csv_returns_iff pk conference :
  get_conference_or_404 db pk = Ok conference ->
  returns (get_authors_csv M db now request pk) <->
  authors_have_profiles M db conference.
Proof.
  intros Hconf. rewrite (get_authors_csv_unfold _ _ Hconf).
  unfold authors_have_profiles. rewrite Forall_forall. split.
  - intros (body & Hbody & _)%bind_returns u Hu Hauthor.
    assert (u ∈ author_users M db conference) as Hin
      by by apply elem_of_author_users.
    apply list_elem_of_lookup in Hin as [i Hi].
    destruct (write_rows_lookup _ _ _ _ _ _ Hbody Hi) as (line & _ & Hline).
    apply author_row_Ok in Hline as (prof & -> & _). by eexists.
  - intros Hall. apply bind_returns.
    destruct (write_rows_returns (author_row M) 1
                (author_users M db conference)) as [body Hbody].
    + intros n u [Hu Hauthor]%elem_of_author_users.
      destruct (Hall u Hu Hauthor) as [prof Hprof].
      eexists. apply author_row_Ok. by exists prof.
    + exists body. split; [done | by eexists].
Qed.

Lemma get_authors_csv_Raise pk conference e :
  get_conference_or_404 db pk = Ok conference ->
  get_authors_csv M db now request pk = Raise e ->
  e = RelatedObjectDoesNotExist.
Proof.
  intros Hconf. rewrite (get_authors_csv_unfold _ _ Hconf).
  destruct (write_rows _ _ _) as [body|e'] eqn:Hbody; [discriminate|].
  intros [= ->].
  apply write_rows_Raise in Hbody as (i & u & _ & Hrow).
  by apply author_row_Raise in Hrow as [_ ->].
Qed.
End authors_csv.

(** C7: after the header the authors export writes one row for each user
    for whom [is_author] holds in the conference and for no other, by
    ascending user identifier, numbered from 1, with the columns number,
    id, full name, second full name, degree, country label, city,
    affiliation, role, e-mail.  The exported users are stored with a
    profile. *)
Theorem get_authors_csv_rows (M : ModelLayer) (db : DB) (now : datetime)
  (request : HttpRequest) (pk : Z) (conference : Conference) :
  get_conference_or_404 db pk = Ok conference ->
  authors_have_profiles M db conference ->
  exists resp exported,
    get_authors_csv M db now request pk = Ok resp /\
    exported ≡ₚ List.filter (is_author M db conference) (users db) /\
    Sorted Z.le (user_pk <$> exported) /\
    rows resp !! 0%nat = Some authors_header /\
    length (rows resp) = S (length exported) /\
    forall (i : nat) u,
      exported !! i = Some u ->
      exists prof,
        profile u = Some prof /\
        rows resp !! S i =
          Some [CInt (Z.of_nat i + 1); CInt (user_pk u);
                CStr (get_full_name M prof); CStr (get_full_name_rus M prof);
                CStr (degree prof); CStr (get_country_display M prof);
                CStr (city prof); CStr (affiliation prof); CStr (role prof);
                CStr (email u)].
Proof.
  intros Hconf Hprofiles.
  apply (get_authors_csv_returns_iff M db now request pk conference Hconf)
    in Hprofiles as [resp Hresp].
  exists resp, (author_users M db conference). split; [done|].
  rewrite (get_authors_csv_unfold _ _ _ _ _ _ Hconf) in Hresp.
  apply bind_Ok in Hresp as (body & Hbody & [= <-]). simpl.
  split; [apply author_users_perm|]. split.
  { apply Sorted_le_filter, order_users_by_pk_sorted. }
  split; [done|]. split.
  { f_equal. by eapply write_rows_length. }
  intros i u Hi.
  destruct (write_rows_lookup _ _ _ _ _ _ Hbody Hi) as (line & Hline & Hrow).
  apply author_row_Ok in Hrow as (prof & Hprof & ->).
  exists prof. split; [done|]. rewrite Hline. do 3 f_equal. lia.
Qed.

Lemma get_authors_csv_rows_witness :
  get_conference_or_404 sample.db 1 = Ok sample.conference /\
  authors_have_profiles sample.models sample.db sample.conference /\
  exists resp exported,
    get_authors_csv sample.models sample.db sample.now sample.request 1 =
      Ok resp /\
    exported ≡ₚ List.filter (is_author sample.models sample.db sample.conference)
                  (users sample.db) /\
    Sorted Z.le (user_pk <$> exported) /\
    rows resp !! 0%nat = Some authors_header /\
    length (rows resp) = S (length exported) /\
    forall (i : nat) u,
      exported !! i = Some u ->
      exists prof,
        profile u = Some prof /\
        rows resp !! S i =
          Some [CInt (Z.of_nat i + 1); CInt (user_pk u);
                CStr (get_full_name sample.models prof);
                CStr (get_full_name_rus sample.models prof);
                CStr (degree prof);
                CStr (get_country_display sample.models prof);
                CStr (city prof); CStr (affiliation prof); CStr (role prof);
                CStr (email u)].
Proof.
  assert (authors_have_profiles sample.models sample.db sample.conference)
    as Hprofiles.
  { apply (bool_decide_unpack _). vm_compute. exact I. }
  split; [reflexivity|]. split; [exact Hprofiles|].
  apply get_authors_csv_rows; [reflexivity | exact Hprofiles].
Defined.

(** C6, as the code has it: for a user stored without a profile, being
    exported is decided by [is_author] alone; when [is_author] holds the
    export raises the missing-profile exception instead of writing the
    row, and the export returns exactly when every user for whom
    [is_author] holds has a profile. *)
Theorem get_authors_csv_no_profile (M : ModelLayer) (db : DB) (now : datetime)
  (request : HttpRequest) (pk : Z) (conference : Conference) (u : User) :
  get_conference_or_404 db pk = Ok conference ->
  u ∈ users db ->
  profile u = None ->
  (u ∈ author_users M db conference <-> is_author M db conference u = true) /\
  (is_author M db conference u = true ->
     get_authors_csv M db now request pk = Raise RelatedObjectDoesNotExist) /\
  (returns (get_authors_csv M db now request pk) <->
     authors_have_profiles M db conference).
Proof.
  intros Hconf Hu Hnone. split; [|split].
  - rewrite elem_of_author_users. split; [by intros [_ ?] | by split].
  - intros Hauthor.
    destruct (get_authors_csv M db now request pk) as [resp|e] eqn:Hresp.
    + assert (authors_have_profiles M db conference) as Hall.
      { apply (get_authors_csv_returns_iff M db now request pk); [done|].
        rewrite Hresp. by eexists. }
      unfold authors_have_profiles in Hall. rewrite Forall_forall in Hall.
      destruct (Hall u Hu Hauthor) as [prof Hprof]. congruence.
    + f_equal. by eapply get_authors_csv_Raise.
  - by apply get_authors_csv_returns_iff.
Qed.

Lemma get_authors_csv_no_profile_witness :
  get_conference_or_404 sample.db_no_profile 1 = Ok sample.conference /\
  mkUser 7 "bob@x.org" None ∈ users sample.db_no_profile /\
  (mkUser 7 "bob@x.org" None ∈
     author_users sample.models sample.db_no_profile sample.conference <->
   is_author sample.models sample.db_no_profile sample.conference
     (mkUser 7 "bob@x.org" None) = true) /\
  (is_author sample.models sample.db_no_profile sample.conference
     (mkUser 7 "bob@x.org" None) = true ->
   get_authors_csv sample.models sample.db_no_profile sample.now
     sample.request 1 = Raise RelatedObjectDoesNotExist) /\
  (returns (get_authors_csv sample.models sample.db_no_profile sample.now
              sample.request 1) <->
   authors_have_profiles sample.models sample.db_no_profile
     sample.conference).
Proof.
  split; [reflexivity|]. split; [by left|].
  apply (get_authors_csv_no_profile sample.models sample.db_no_profile
           sample.now sample.request 1 sample.conference
           (mkUser 7 "bob@x.org" None)); [reflexivity | by left | reflexivity].
Defined.

(** User 7 has no profile and is an author in conference 1: the authors
    export of that conference raises, so no row is written for the user
    without an error. *)
Lemma get_authors_csv_no_profile_raises :
  profile (mkUser 7 "bob@x.org" None) = None /\
  mkUser 7 "bob@x.org" None ∈ users sample.db_no_profile /\
  is_author sample.models sample.db_no_profile sample.conference
    (mkUser 7 "bob@x.org" None) = true /\
  get_authors_csv sample.models sample.db_no_profile sample.now
    sample.request 1 = Raise RelatedObjectDoesNotExist /\
  ¬ returns (get_authors_csv sample.models sample.db_no_profile sample.now
               sample.request 1).
Proof.
  split; [reflexivity|]. split; [by left|]. split; [reflexivity|].
  split; [reflexivity|]. intros [resp Hresp]. discriminate Hresp.
Qed.

(** * The attachment name *)

Lemma digit_value_digit d : digit_value (digit d) = Some (d `mod` 10).
Proof.
  unfold digit_value, digit.
  pose proof (Z.mod_pos_bound d 10 ltac:(lia)) as Hd.
  rewrite nat_ascii_embedding by lia.
  rewrite Nat2Z.inj_add, Z2Nat.id by lia.
  change (Z.of_nat 48) with 48.
  destruct (Z.leb_spec 48 (48 + d `mod` 10)); [|lia].
  destruct (Z.leb_spec (48 + d `mod` 10) 57); [|lia].
  simpl. f_equal. lia.
Qed.

Lemma string_app_cons c (s r : string) : String c s +:+ r = String c (s +:+ r).
Proof. reflexivity. Qed.

Lemma read_number_digit w acc d s :
  read_number (S w) acc (String (digit d) s) =
  read_number w (10 * acc + d `mod` 10) s.
Proof.
  change (read_number (S w) acc (String (digit d) s))
    with (x ← digit_value (digit d); read_number w (10 * acc + x) s).
  by rewrite digit_value_digit.
Qed.

Lemma read_number_digits2 n acc rest :
  0 <= n < 100 ->
  read_number 2 acc (digits2 n +:+ rest) = Some (100 * acc + n, rest).
Proof.
  intros Hn. unfold digits2. rewrite !string_app_cons, !read_number_digit.
  change (EmptyString +:+ rest) with rest.
  change (read_number 0 ?a rest) with (Some (a, rest)). do 2 f_equal.
  rewrite (Z.mod_small (n `div` 10) 10)
    by (split; [apply Z.div_pos | apply Z.div_lt_upper_bound]; lia).
  pose proof (Z.div_mod n 10 ltac:(lia)). lia.
Qed.

Lemma read_number_digits4 n rest :
  0 <= n < 10000 ->
  read_number 4 0 (digits4 n +:+ rest) = Some (n, rest).
Proof.
  intros Hn. unfold digits4, digits2.
  rewrite !string_app_cons, !read_number_digit.
  change (EmptyString +:+ rest) with rest.
  change (read_number 0 ?a rest) with (Some (a, rest)). do 2 f_equal.
  pose proof (Z.div_mod n 10 ltac:(lia)).
  pose proof (Z.div_mod (n `div` 10) 10 ltac:(lia)) as H10.
  pose proof (Z.div_mod (n `div` 100) 10 ltac:(lia)) as H100.
  rewrite Z.div_div in H10 by lia. rewrite Z.div_div in H100 by lia.
  change (10 * 10) with 100 in H10. change (100 * 10) with 1000 in H100.
  rewrite (Z.mod_small (n `div` 1000) 10)
    by (split; [apply Z.div_pos | apply Z.div_lt_upper_bound]; lia).
  lia.
Qed.

(** The stamp written by [strftime] reads back as the clock reading it
    was made from, and as nothing but a stamp of that form. *)
Lemma parse_timestamp_strftime t :
  valid_datetime t -> parse_timestamp (strftime t) = Some t.
Proof.
  destruct t as [y m d h mi]. unfold valid_datetime, strftime.
  cbn [year month day hour minute].
  intros (Hy & Hm & Hd & Hh & Hmi). unfold parse_timestamp.
  rewrite read_number_digits4 by lia. cbn [mbind option_bind].
  rewrite read_number_digits2 by lia. cbn [mbind option_bind].
  rewrite read_number_digits2 by lia. cbn [mbind option_bind].
  change ("_" +:+ ?s) with (String "_"%char s). cbv iota beta.
  rewrite read_number_digits2 by lia. cbn [mbind option_bind].
  replace (digits2 mi) with (digits2 mi +:+ EmptyString) by reflexivity.
  rewrite read_number_digits2 by lia. cbn [mbind option_bind].
  do 2 f_equal; lia.
Qed.

(** C9: a response of either export has content type [text/csv] and the
    Content-Disposition of an attachment named [submissions-<stamp>.csv],
    respectively [authors-<stamp>.csv], where the stamp has the form
    YYYYMMDD_HHMM and is the reading of the clock taken by the view. *)
Theorem csv_exports_headers (M : ModelLayer) (route : urls.Route)
  (set_order : list string -> list string) (db : DB) (now : datetime)
  (request : HttpRequest) (pk : Z) :
  valid_datetime now ->
  (forall resp,
     get_submissions_csv M route set_order db now request pk = Ok resp ->
     content_type resp = "text/csv" /\
     exists stamp,
       content_disposition resp =
         "attachment; filename=" +:+ dquote +:+ "submissions" +:+ "-" +:+
         stamp +:+ ".csv" +:+ dquote /\
       String.length stamp = 13%nat /\
       parse_timestamp stamp = Some now) /\
  (forall resp,
     get_authors_csv M db now request pk = Ok resp ->
     content_type resp = "text/csv" /\
     exists stamp,
       content_disposition resp =
         "attachment; filename=" +:+ dquote +:+ "authors" +:+ "-" +:+
         stamp +:+ ".csv" +:+ dquote /\
       String.length stamp = 13%nat /\
       parse_timestamp stamp = Some now).
Proof.
  intros Hnow. split; intros resp Hresp.
  - unfold get_submissions_csv in Hresp.
    apply bind_Ok in Hresp as (conference & _ & Hresp).
    apply bind_Ok in Hresp as (body & _ & [= <-]).
    split; [done|]. exists (strftime now).
    split; [done|]. split; [done | by apply parse_timestamp_strftime].
  - unfold get_authors_csv in Hresp.
    apply bind_Ok in Hresp as (conference & _ & Hresp).
    apply bind_Ok in Hresp as (body & _ & [= <-]).
    split; [done|]. exists (strftime now).
    split; [done|]. split; [done | by apply parse_timestamp_strftime].
Qed.

Lemma csv_exports_headers_witness :
  valid_datetime sample.now /\
  (exists resp,
     get_submissions_csv sample.models sample.route remove_dups sample.db
       sample.now sample.request 1 = Ok resp /\
     content_type resp = "text/csv" /\
     exists stamp,
       content_disposition resp =
         "attachment; filename=" +:+ dquote +:+ "submissions" +:+ "-" +:+
         stamp +:+ ".csv" +:+ dquote /\
       String.length stamp = 13%nat /\
       parse_timestamp stamp = Some sample.now) /\
  (exists resp,
     get_authors_csv sample.models sample.db sample.now sample.request 1 =
       Ok resp /\
     content_type resp = "text/csv" /\
     exists stamp,
       content_disposition resp =
         "attachment; filename=" +:+ dquote +:+ "authors" +:+ "-" +:+
         stamp +:+ ".csv" +:+ dquote /\
       String.length stamp = 13%nat /\
       parse_timestamp stamp = Some sample.now).
Proof.
  assert (valid_datetime sample.now) as Hnow by (vm_compute; intuition discriminate).
  split; [exact Hnow|].
  destruct (csv_exports_headers sample.models sample.route remove_dups
              sample.db sample.now sample.request 1 Hnow) as [Hsubs Hauthors].
  split.
  - eexists. split; [vm_compute; reflexivity|]. apply Hsubs.
    vm_compute. reflexivity.
  - eexists. split; [vm_compute; reflexivity|]. apply Hauthors.
    vm_compute. reflexivity.
Defined.

(** The stamp for 7 March 2019, 09:05. *)
Example strftime_sample : strftime sample.now = "20190307_0905".
Proof. vm_compute. reflexivity. Qed.

(** * Dictionaries *)

Section dict_facts.
Context {K V : Type} (key : K -> Z).
Local Open Scope list_scope.
Local Abbreviation dict_keys := (@dict_keys K V key).

Lemma dict_set_keys_in (k : K) (v : V) (d : list (K * V)) :
  key k ∈ dict_keys d -> dict_keys (dict_set key k v d) = dict_keys d.
Proof.
  induction d as [|[k' v'] d IH]; simpl.
  - by intros ?%elem_of_nil.
  - intros Hin. destruct (Z.eqb_spec (key k') (key k)) as [Heq|Hne]; [done|].
    simpl. f_equal. apply IH. apply elem_of_cons in Hin as [?|?]; [|done].
    congruence.
Qed.

Lemma dict_set_keys_fresh (k : K) (v : V) (d : list (K * V)) :
  key k ∉ dict_keys d -> dict_keys (dict_set key k v d) = dict_keys d ++ [key k].
Proof.
  induction d as [|[k' v'] d IH]; simpl; [done|].
  intros Hnotin. apply not_elem_of_cons in Hnotin as [Hne Hnotin].
  destruct (Z.eqb_spec (key k') (key k)) as [Heq|_]; [congruence|].
  simpl. f_equal. by apply IH.
Qed.

Lemma elem_of_dict_set_keys x (k : K) (v : V) (d : list (K * V)) :
  x ∈ dict_keys (dict_set key k v d) <-> x ∈ dict_keys d \/ x = key k.
Proof.
  destruct (decide (key k ∈ dict_keys d)) as [Hin|Hnotin].
  - rewrite dict_set_keys_in by done. split; [by left|].
    by intros [?| ->].
  - rewrite dict_set_keys_fresh, elem_of_app, list_elem_of_singleton by done.
    done.
Qed.

(** An entry after an assignment is an old entry or carries the value
    just assigned under an equal key. *)
Lemma elem_of_dict_set (k' : K) (v' : V) (k : K) (v : V) (d : list (K * V)) :
  (k', v') ∈ dict_set key k v d ->
  (k', v') ∈ d \/ (key k' = key k /\ v' = v).
Proof.
  induction d as [|[k0 v0] d IH]; simpl.
  - intros [= -> ->]%list_elem_of_singleton. by right.
  - destruct (Z.eqb_spec (key k0) (key k)) as [Heq|Hne].
    + intros [[= -> ->]|Hin]%elem_of_cons; [by right|]. left. by right.
    + intros [[= -> ->]|Hin]%elem_of_cons; [left; by left|].
      destruct (IH Hin) as [?|?]; [left; by right | by right].
Qed.

Lemma dict_comp_cons (f : K -> result V) k l (d : list (K * V)) :
  dict_comp key f (k :: l) d = v ← f k; dict_comp key f l (dict_set key k v d).
Proof. reflexivity. Qed.

Lemma dict_comp_returns (f : K -> result V) l (d : list (K * V)) :
  Forall (fun k => returns (f k)) l -> returns (dict_comp key f l d).
Proof.
  intros Hall. revert d. induction Hall as [|k l [v Hv] _ IH]; intros d.
  - by exists d.
  - rewrite dict_comp_cons, Hv, bind_Ok_l. apply IH.
Qed.

Lemma elem_of_dict_comp_keys (f : K -> result V) l (d d' : list (K * V)) x :
  dict_comp key f l d = Ok d' ->
  x ∈ dict_keys d' <-> x ∈ dict_keys d \/ x ∈ key <$> l.
Proof.
  revert d. induction l as [|k l IH]; intros d.
  - intros [= <-]. rewrite fmap_nil, elem_of_nil. tauto.
  - rewrite dict_comp_cons. intros (v & Hv & Hrest)%bind_Ok.
    rewrite (IH _ Hrest), elem_of_dict_set_keys, fmap_cons, elem_of_cons.
    tauto.
Qed.


(** A property of entries that every assignment establishes and that
    only looks at the key holds of the finished dictionary. *)
Lemma dict_comp_entries (P : Z -> V -> Prop) (f : K -> result V) l
  (d d' : list (K * V)) :
  (forall k v, f k = Ok v -> P (key k) v) ->
  Forall (fun kv => P (key kv.1) kv.2) d ->
  dict_comp key f l d = Ok d' ->
  Forall (fun kv => P (key kv.1) kv.2) d'.
Proof.
  intros Hf. revert d. induction l as [|k l IH]; intros d Hd.
  - by intros [= <-].
  - rewrite dict_comp_cons. intros (v & Hv & Hrest)%bind_Ok.
    refine (IH _ _ Hrest).
    rewrite Forall_forall in *. intros [k' v'] Hin.
    apply elem_of_dict_set in Hin as [Hin|[Hkey ->]]; [by apply (Hd _ Hin)|].
    simpl. rewrite Hkey. by apply Hf.
Qed.

Lemma dict_get_Ok (k : K) (d : list (K * V)) (v : V) :
  dict_get key k d = Ok v -> exists k', (k', v) ∈ d /\ key k' = key k.
Proof.
  unfold dict_get.
  destruct (List.find _ d) as [[k' v']|] eqn:Hfind; [|discriminate].
  intros [= <-]. apply find_some in Hfind as [Hin Hkey]. simpl in *.
  exists k'. split; [by apply list_elem_of_In | by apply Z.eqb_eq].
Qed.

Lemma dict_get_returns (k : K) (d : list (K * V)) :
  key k ∈ dict_keys d -> returns (dict_get key k d).
Proof.
  unfold dict_get, dict_keys. intros ([k' v'] & Hkey & Hin)%list_elem_of_fmap.
  destruct (List.find _ d) as [[k0 v0]|] eqn:Hfind; [by eexists|].
  apply list_elem_of_In in Hin.
  pose proof (find_none _ _ Hfind _ Hin) as Hno. simpl in *.
  apply Z.eqb_neq in Hno. congruence.
Qed.
End dict_facts.

(** * The listings *)

Lemma listed_submissions_filter_off (form : FilterForm Submission) db
  conference request :
  filter_off form db conference request ->
  listed_submissions form db request conference = submission_set db conference.
Proof.
  unfold listed_submissions. intros [-> | [-> Hempty]]; [done|].
  destruct (form_is_valid form db conference []) eqn:Hvalid; [|done].
  by apply Hempty.
Qed.

Section listings.
Context (M : ModelLayer) (db : DB) (request : HttpRequest).

Lemma user_authorships_in_pk conference u u' :
  user_pk u = user_pk u' ->
  user_authorships_in db conference u = user_authorships_in db conference u'.
Proof. unfold user_authorships_in. by intros ->. Qed.

Lemma users_list_unfold form pk conference :
  get_conference_or_404 db pk = Ok conference ->
  users_list M form db request pk =
  profiles ← dict_comp user_pk user_profile
               (listed_users form db request conference) [];
  authors ← dict_comp user_pk
              (fun user => Ok (user_authorships_in db conference user))
              (listed_users form db request conference) [];
  ups ← mapM (user_entry M authors) profiles;
  Ok (mkListContext conference ups).
Proof. unfold users_list. by intros ->. Qed.

(** The [authors] dictionary holds, under each key, the authorships of
    that user in the conference. *)
Lemma authors_dict_entries conference l authors :
  dict_comp user_pk (fun user => Ok (user_authorships_in db conference user))
    l [] = Ok authors ->
  Forall (fun kv => forall u, user_pk u = user_pk kv.1 ->
                      kv.2 = user_authorships_in db conference u) authors.
Proof.
  apply (dict_comp_entries user_pk
           (fun pk v => forall u, user_pk u = pk ->
                          v = user_authorships_in db conference u)).
  - intros k v [= <-] u Hu. by apply user_authorships_in_pk.
  - constructor.
Qed.

Lemma user_entry_Ok conference authors user prof e :
  Forall (fun kv => forall u, user_pk u = user_pk kv.1 ->
                      kv.2 = user_authorships_in db conference u) authors ->
  user_entry M authors (user, prof) = Ok e ->
  ue_pk e = user_pk user /\
  num_submissions e = length (user_authorships_in db conference user) /\
  is_participant e =
    bool_decide (0 < length (user_authorships_in db conference user))%nat.
Proof.
  intros Hauthors. unfold user_entry.
  intros (au & Hau & [= <-])%bind_Ok. simpl.
  apply dict_get_Ok in Hau as (k' & Hin & Hkey).
  rewrite Forall_forall in Hauthors.
  pose proof (Hauthors _ Hin user (eq_sym Hkey)) as Heq. simpl in Heq.
  by rewrite Heq.
Qed.

Lemma users_list_items form pk conference ctx :
  get_conference_or_404 db pk = Ok conference ->
  users_list M form db request pk = Ok ctx ->
  exists profiles,
    dict_comp user_pk user_profile
      (listed_users form db request conference) [] = Ok profiles /\
    Forall2 (fun item e =>
               ue_pk e = user_pk item.1 /\
               num_submissions e =
                 length (user_authorships_in db conference item.1) /\
               is_participant e =
                 bool_decide
                   (0 < length (user_authorships_in db conference item.1))%nat)
            profiles (ctx_items ctx).
Proof.
  intros Hconf. rewrite (users_list_unfold _ _ _ Hconf).
  intros (profiles & Hprofiles & H)%bind_Ok.
  apply bind_Ok in H as (authors & Hauthors & H).
  apply bind_Ok in H as (ups & Hups & [= <-]). simpl.
  exists profiles. split; [done|].
  apply mapM_Ok in Hups. eapply Forall2_impl; [exact Hups|].
  intros [user prof] e He. eapply user_entry_Ok; [|exact He].
  by eapply authors_dict_entries.
Qed.

End listings.

Lemma List_filter_decide {A} (f : A -> bool) (P : A -> Prop)
  `{forall x, Decision (P x)} (l : list A) :
  (forall x, f x = true <-> P x) -> List.filter f l = filter P l.
Proof.
  intros Hf. induction l as [|x l IH]; [done|].
  simpl. rewrite filter_cons. destruct (decide (P x)) as [HP|HP].
  - apply Hf in HP as ->. by rewrite IH.
  - destruct (f x) eqn:Hfx; [|done]. by apply Hf in Hfx.
Qed.

(** With unique identifiers, following the foreign key finds the one
    submission stored under it. *)
Lemma get_submission_Some db pk s :
  NoDup (sub_pk <$> submissions db) ->
  get_submission db pk = Some s <-> s ∈ submissions db /\ sub_pk s = pk.
Proof.
  unfold get_submission. intros Hnodup. split.
  - intros [Hin Hpk]%find_some. split; [by apply list_elem_of_In | lia].
  - intros [Hin <-]. induction (submissions db) as [|s' l IH]; simpl.
    + by apply elem_of_nil in Hin.
    + rewrite fmap_cons in Hnodup. apply NoDup_cons in Hnodup as [Hfresh Hnodup].
      destruct (Z.eqb_spec (sub_pk s') (sub_pk s)) as [Heq|Hne].
      * apply elem_of_cons in Hin as [->|Hin]; [done|].
        destruct Hfresh. rewrite Heq. apply list_elem_of_fmap. by exists s.
      * apply elem_of_cons in Hin as [->|Hin]; [done | by apply IH].
Qed.

Lemma user_authorships_in_spec db conference u :
  NoDup (sub_pk <$> submissions db) ->
  user_authorships_in db conference u =
  filter (authorship_in_conference db conference (user_pk u)) (authorships db).
Proof.
  intros Hnodup. unfold user_authorships_in. apply List_filter_decide.
  intros a. unfold authorship_in_conference.
  rewrite andb_true_iff, Z.eqb_eq, Exists_exists. apply and_iff_compat_l.
  destruct (get_submission db (author_submission a)) as [s|] eqn:Hget.
  - apply get_submission_Some in Hget as [Hin Hpk]; [|done].
    rewrite Z.eqb_eq. split; [by exists s|].
    intros (s' & Hin' & Hpk' & Hconf).
    assert (get_submission db (author_submission a) = Some s') as Hs'
      by by apply get_submission_Some.
    assert (get_submission db (author_submission a) = Some s) as Hs
      by by apply get_submission_Some.
    congruence.
  - split; [discriminate|]. intros (s' & Hin' & Hpk' & _).
    assert (get_submission db (author_submission a) = Some s') as Hs'
      by by apply get_submission_Some.
    congruence.
Qed.

(** C3: for every user shaped by [users_list], [num_submissions] is the
    number of the user's authorships whose submission belongs to the
    conference, and [is_participant] is true exactly when there is such
    an authorship. *)
Theorem users_list_participation (M : ModelLayer) (form : FilterForm User)
  (db : DB) (request : HttpRequest) (pk : Z) (conference : Conference)
  (ctx : ListContext UserEntry) :
  NoDup (sub_pk <$> submissions db) ->
  get_conference_or_404 db pk = Ok conference ->
  users_list M form db request pk = Ok ctx ->
  forall e, e ∈ ctx_items ctx ->
    num_submissions e =
      length (filter (authorship_in_conference db conference (ue_pk e))
                     (authorships db)) /\
    (is_participant e = true <->
     exists a, a ∈ authorships db /\
               authorship_in_conference db conference (ue_pk e) a).
Proof.
  intros Hnodup Hconf Hctx e He.
  destruct (users_list_items M db request form pk conference ctx Hconf Hctx)
    as (profiles & _ & Hitems).
  apply list_elem_of_lookup in He as [i Hi].
  destruct (Forall2_lookup_r _ _ _ _ _ Hitems Hi)
    as ([user prof] & _ & Hpk & Hnum & Hpart).
  simpl in *. rewrite Hpk, Hnum, Hpart, user_authorships_in_spec by done.
  split; [done|]. rewrite bool_decide_eq_true. split.
  - intros Hlen.
    destruct (filter _ (authorships db)) as [|a l] eqn:Hfilter;
      [simpl in Hlen; lia|].
    assert (a ∈ filter (authorship_in_conference db conference (user_pk user))
                       (authorships db)) as Ha
      by (rewrite Hfilter; by left).
    apply list_elem_of_filter in Ha as [Hscoped Hin]. by exists a.
  - intros (a & Hin & Hscoped).
    assert (a ∈ filter (authorship_in_conference db conference (user_pk user))
                       (authorships db)) as Ha
      by by apply list_elem_of_filter.
    destruct (filter _ (authorships db)); [by apply elem_of_nil in Ha|].
    simpl. lia.
Qed.

Lemma users_list_participation_witness :
  NoDup (sub_pk <$> submissions sample.db) /\
  get_conference_or_404 sample.db 1 = Ok sample.conference /\
  exists ctx,
    users_list sample.models sample.users_form sample.db sample.request 1 =
      Ok ctx /\
    forall e, e ∈ ctx_items ctx ->
      num_submissions e =
        length (filter (authorship_in_conference sample.db sample.conference
                          (ue_pk e))
                       (authorships sample.db)) /\
      (is_participant e = true <->
       exists a, a ∈ authorships sample.db /\
                 authorship_in_conference sample.db sample.conference
                   (ue_pk e) a).
Proof.
  assert (NoDup (sub_pk <$> submissions sample.db)) as Hnodup.
  { apply (bool_decide_unpack _). vm_compute. exact I. }
  split; [exact Hnodup|]. split; [reflexivity|].
  eexists. split; [vm_compute; reflexivity|].
  apply (users_list_participation sample.models sample.users_form sample.db
           sample.request 1 sample.conference _ Hnodup eq_refl).
  vm_compute. reflexivity.
Defined.

(** On the sample site user 7 wrote submissions 5 and 3 of conference 1,
    user 9 one there (and one elsewhere), user 4 none. *)
Example users_list_sample_counts :
  (fun ctx => (fun e => (ue_pk e, num_submissions e, is_participant e)) <$>
                ctx_items ctx) <$>
    match users_list sample.models sample.users_form sample.db
            sample.request 1 with
    | Ok ctx => Some ctx
    | Raise _ => None
    end =
  Some [(7, 2%nat, true); (2, 1%nat, true); (9, 1%nat, true);
        (4, 0%nat, false)].
Proof. vm_compute. reflexivity. Qed.

Section listings_unfiltered.
Context (M : ModelLayer) (db : DB) (request : HttpRequest).


Lemma users_list_lookup form pk conference ctx u :
  get_conference_or_404 db pk = Ok conference ->
  users_list M form db request pk = Ok ctx ->
  u ∈ listed_users form db request conference ->
  exists e,
    e ∈ ctx_items ctx /\ ue_pk e = user_pk u /\
    num_submissions e = length (user_authorships_in db conference u).
Proof.
  intros Hconf Hctx Hu.
  destruct (users_list_items M db request form pk conference ctx Hconf Hctx)
    as (profiles & Hprofiles & Hitems).
  assert (user_pk u ∈ dict_keys user_pk profiles) as Hkey.
  { apply (elem_of_dict_comp_keys user_pk _ _ _ _ _ Hprofiles). right.
    apply list_elem_of_fmap. by exists u. }
  apply list_elem_of_fmap in Hkey as ([k prof] & Hk & Hin).
  apply list_elem_of_lookup in Hin as [i Hi].
  destruct (Forall2_lookup_l _ _ _ _ _ Hitems Hi) as (e & He & Hpk & Hnum & _).
  simpl in *. exists e. split; [by eapply list_elem_of_lookup_2|].
  split; [congruence|]. rewrite Hnum.
  f_equal. by apply user_authorships_in_pk.
Qed.

Lemma users_list_lookup_inv form pk conference ctx e :
  get_conference_or_404 db pk = Ok conference ->
  users_list M form db request pk = Ok ctx ->
  e ∈ ctx_items ctx ->
  exists u, u ∈ listed_users form db request conference /\
            ue_pk e = user_pk u.
Proof.
  intros Hconf Hctx [i Hi]%list_elem_of_lookup.
  destruct (users_list_items M db request form pk conference ctx Hconf Hctx)
    as (profiles & Hprofiles & Hitems).
  destruct (Forall2_lookup_r _ _ _ _ _ Hitems Hi)
    as ([k prof] & Hk & Hpk & _).
  assert (user_pk k ∈ dict_keys user_pk profiles) as Hkey.
  { apply list_elem_of_fmap. exists (k, prof).
    split; [done | by eapply list_elem_of_lookup_2]. }
  apply (elem_of_dict_comp_keys user_pk _ _ _ _ _ Hprofiles) in Hkey
    as [Hkey|Hkey]; [by apply elem_of_nil in Hkey|].
  apply list_elem_of_fmap in Hkey as (u & Hu & Hin).
  exists u. split; [done|]. simpl in *. congruence.
Qed.

End listings_unfiltered.

(** In conference 2 only user 9 is an author; the listing of that
    conference still shows all four users of the site. *)
Example users_list_conference_2 :
  (fun ctx => (fun e => (ue_pk e, num_submissions e)) <$> ctx_items ctx) <$>
    match users_list sample.models sample.users_form sample.db
            sample.bad_request 2 with
    | Ok ctx => Some ctx
    | Raise _ => None
    end =
  Some [(7, 0%nat); (2, 0%nat); (9, 1%nat); (4, 0%nat)].
Proof. vm_compute. reflexivity. Qed.

(** * Looking records up by identifier *)

Lemma get_conference_or_404_Ok db pk c :
  get_conference_or_404 db pk = Ok c -> c ∈ conferences db /\ conf_pk c = pk.
Proof.
  unfold get_conference_or_404.
  destruct (List.find _ (conferences db)) as [c'|] eqn:Hfind; [|discriminate].
  intros [= <-]. apply find_some in Hfind as [Hin Hpk].
  split; [by apply list_elem_of_In | by apply Z.eqb_eq].
Qed.

Lemma get_conference_or_404_Raise db pk e :
  get_conference_or_404 db pk = Raise e <-> e = Http404 /\ no_conference db pk.
Proof.
  unfold get_conference_or_404, no_conference. rewrite Forall_forall.
  destruct (List.find _ (conferences db)) as [c|] eqn:Hfind; split.
  - discriminate.
  - intros [_ Hnone]. apply find_some in Hfind as [Hin Hpk].
    apply Z.eqb_eq in Hpk. by destruct (Hnone c); [apply list_elem_of_In|].
  - intros [= <-]. split; [done|]. intros c Hin%list_elem_of_In.
    by apply Z.eqb_neq, (find_none _ _ Hfind).
  - by intros [-> _].
Qed.

Lemma get_user_or_404_Ok db pk u :
  get_user_or_404 db pk = Ok u -> u ∈ users db /\ user_pk u = pk.
Proof.
  unfold get_user_or_404.
  destruct (List.find _ (users db)) as [u'|] eqn:Hfind; [|discriminate].
  intros [= <-]. apply find_some in Hfind as [Hin Hpk].
  split; [by apply list_elem_of_In | by apply Z.eqb_eq].
Qed.

Lemma get_user_or_404_Raise db pk e :
  get_user_or_404 db pk = Raise e <-> e = Http404 /\ no_user db pk.
Proof.
  unfold get_user_or_404, no_user. rewrite Forall_forall.
  destruct (List.find _ (users db)) as [u|] eqn:Hfind; split.
  - discriminate.
  - intros [_ Hnone]. apply find_some in Hfind as [Hin Hpk].
    apply Z.eqb_eq in Hpk. by destruct (Hnone u); [apply list_elem_of_In|].
  - intros [= <-]. split; [done|]. intros u Hin%list_elem_of_In.
    by apply Z.eqb_neq, (find_none _ _ Hfind).
  - by intros [-> _].
Qed.

Lemma bind_Raise_l {A B} e (k : A -> result B) : Raise e ≫= k = Raise e.
Proof. reflexivity. Qed.

(** X1: when no conference is stored under the identifier of the path,
    each of the six views answers with the not-found exception, before it
    reads anything else. *)
Theorem views_not_found (M : ModelLayer) (route : urls.Route)
  (set_order : list string -> list string)
  (sform : FilterForm Submission) (uform : FilterForm User)
  (db : DB) (now : datetime) (request : HttpRequest) (pk upk : Z) :
  no_conference db pk ->
  dashboard db request pk = Raise Http404 /\
  submissions_list M sform db request pk = Raise Http404 /\
  users_list M uform db request pk = Raise Http404 /\
  user_details db request pk upk = Raise Http404 /\
  get_submissions_csv M route set_order db now request pk = Raise Http404 /\
  get_authors_csv M db now request pk = Raise Http404.
Proof.
  intros Hnone.
  assert (get_conference_or_404 db pk = Raise Http404) as Hconf
    by by apply get_conference_or_404_Raise.
  unfold dashboard, submissions_list, users_list, user_details,
    get_submissions_csv, get_authors_csv.
  by rewrite Hconf, !bind_Raise_l.
Qed.

Lemma views_not_found_witness :
  no_conference sample.db 99 /\
  dashboard sample.db sample.request 99 = Raise Http404 /\
  submissions_list sample.models sample.subs_form sample.db sample.request 99 =
    Raise Http404 /\
  users_list sample.models sample.users_form sample.db sample.request 99 =
    Raise Http404 /\
  user_details sample.db sample.request 99 7 = Raise Http404 /\
  get_submissions_csv sample.models sample.route remove_dups sample.db
    sample.now sample.request 99 = Raise Http404 /\
  get_authors_csv sample.models sample.db sample.now sample.request 99 =
    Raise Http404.
Proof.
  assert (no_conference sample.db 99) as Hnone.
  { apply (bool_decide_unpack _). vm_compute. exact I. }
  split; [exact Hnone|].
  exact (views_not_found sample.models sample.route remove_dups
           sample.subs_form sample.users_form sample.db sample.now
           sample.request 99 7 Hnone).
Defined.

(** X2: the dashboard and the page of one user return exactly the stored
    records with the identifiers of the path; the only exception they
    raise is the not-found one, when the conference is missing or, for
    the user page, the user is.  The user need not have a profile nor
    anything to do with the conference. *)
Theorem pages_outcome (db : DB) (request : HttpRequest) (pk upk : Z) :
  match dashboard db request pk with
  | Ok ctx =>
      dash_conference ctx ∈ conferences db /\ conf_pk (dash_conference ctx) = pk
  | Raise e => e = Http404 /\ no_conference db pk
  end /\
  match user_details db request pk upk with
  | Ok ctx =>
      ud_conference ctx ∈ conferences db /\ conf_pk (ud_conference ctx) = pk /\
      ud_member ctx ∈ users db /\ user_pk (ud_member ctx) = upk
  | Raise e => e = Http404 /\ (no_conference db pk \/ no_user db upk)
  end.
Proof.
  unfold dashboard, user_details.
  destruct (get_conference_or_404 db pk) as [c|e] eqn:Hconf.
  - apply get_conference_or_404_Ok in Hconf as [Hin Hpk].
    rewrite !bind_Ok_l. split; [done|].
    destruct (get_user_or_404 db upk) as [u|e] eqn:Huser.
    + apply get_user_or_404_Ok in Huser as [Hu Hupk]. by rewrite bind_Ok_l.
    + apply get_user_or_404_Raise in Huser as [-> Hnone].
      rewrite bind_Raise_l. split; [done | by right].
  - apply get_conference_or_404_Raise in Hconf as [-> Hnone].
    rewrite !bind_Raise_l. split; [done|]. split; [done | by left].
Qed.

(** User 7 of the second sample site has no profile; the page of that
    user is served all the same. *)
Example user_details_no_profile :
  user_details sample.db_no_profile sample.request 1 7 =
  Ok {| ud_conference := sample.conference;
        ud_member := mkUser 7 "bob@x.org" None |}.
Proof. reflexivity. Qed.

(** * The submissions listing, entry by entry *)

Lemma mapM_fmap_Ok {A B} (f : A -> result B) (g : A -> B) (l : list A) :
  (forall x, x ∈ l -> f x = Ok (g x)) -> mapM f l = Ok (g <$> l).
Proof.
  induction l as [|x l IH]; intros Hf; [done|].
  rewrite mapM_cons, (Hf x), bind_Ok_l by by left.
  rewrite IH, bind_Ok_l; [done|]. intros y Hy. apply Hf. by right.
Qed.

Lemma author_profile_values_pk db sub sub' :
  sub_pk sub = sub_pk sub' ->
  author_profile_values db sub = author_profile_values db sub'.
Proof. unfold author_profile_values, sub_authors. by intros ->. Qed.

(** The dictionary lookups of the view always succeed and hand every
    submission its own authors. *)
Lemma submissions_list_eq (M : ModelLayer) (form : FilterForm Submission)
  (db : DB) (request : HttpRequest) (pk : Z) (conference : Conference) :
  get_conference_or_404 db pk = Ok conference ->
  submissions_list M form db request pk =
  Ok (mkListContext conference
        (shaped_submission M db <$>
           listed_submissions form db request conference)).
Proof.
  intros Hconf. unfold submissions_list. rewrite Hconf, bind_Ok_l.
  set (l := listed_submissions form db request conference).
  destruct (dict_comp_returns sub_pk
              (fun sub => Ok (author_profile_values db sub)) l [])
    as [auth_prs Hprs].
  { apply Forall_forall. intros sub _. by eexists. }
  rewrite Hprs, bind_Ok_l.
  rewrite (mapM_fmap_Ok _ (shaped_submission M db)); [done|].
  intros sub Hsub.
  assert (sub_pk sub ∈ dict_keys sub_pk auth_prs) as Hkey.
  { apply (elem_of_dict_comp_keys sub_pk _ _ _ _ _ Hprs). right.
    apply list_elem_of_fmap. by exists sub. }
  apply (dict_get_returns sub_pk) in Hkey as [prs Hget].
  unfold submission_entry. rewrite Hget, bind_Ok_l.
  apply dict_get_Ok in Hget as (sub' & Hin & Hpk).
  assert (Forall (fun kv => forall s, sub_pk s = sub_pk kv.1 ->
                    kv.2 = author_profile_values db s) auth_prs) as Hall.
  { refine (dict_comp_entries sub_pk
              (fun k v => forall s, sub_pk s = k ->
                            v = author_profile_values db s)
              _ _ _ _ _ _ Hprs); [|constructor].
    intros k v [= <-] s Hs. by apply author_profile_values_pk. }
  rewrite Forall_forall in Hall.
  pose proof (Hall _ Hin sub (eq_sym Hpk)) as Heq. simpl in Heq.
  by rewrite Heq.
Qed.

(** X3: once the conference is found, [submissions_list] always returns,
    also when users of the site have no profile.  It has one entry per
    element of the record set left by the filter, in the order of that
    set and without merging repeated elements, and each entry shows the
    identifier, title, abstract and status of its own submission. *)
Theorem submissions_list_entries (M : ModelLayer)
  (form : FilterForm Submission) (db : DB) (request : HttpRequest) (pk : Z)
  (conference : Conference) :
  get_conference_or_404 db pk = Ok conference ->
  exists ctx,
    submissions_list M form db request pk = Ok ctx /\
    ctx_conference ctx = conference /\
    se_object <$> ctx_items ctx =
      listed_submissions form db request conference /\
    Forall (fun e =>
              se_pk e = sub_pk (se_object e) /\
              se_title e = title (se_object e) /\
              se_abstract e = abstract (se_object e) /\
              se_status e = status (se_object e) /\
              se_status_display e = get_status_display M (se_object e) /\
              se_warnings e = warnings M db (se_object e))
           (ctx_items ctx).
Proof.
  intros Hconf. eexists. split; [by apply submissions_list_eq|].
  simpl. split; [done|]. split.
  - rewrite <- list_fmap_compose. apply list_fmap_id.
  - apply Forall_fmap, Forall_forall. by intros sub _.
Qed.

Lemma submissions_list_entries_witness :
  get_conference_or_404 sample.db_no_profile 1 = Ok sample.conference /\
  exists ctx,
    submissions_list sample.models sample.subs_form sample.db_no_profile
      sample.request 1 = Ok ctx /\
    ctx_conference ctx = sample.conference /\
    se_object <$> ctx_items ctx =
      listed_submissions sample.subs_form sample.db_no_profile sample.request
        sample.conference /\
    Forall (fun e =>
              se_pk e = sub_pk (se_object e) /\
              se_title e = title (se_object e) /\
              se_abstract e = abstract (se_object e) /\
              se_status e = status (se_object e) /\
              se_status_display e =
                get_status_display sample.models (se_object e) /\
              se_warnings e =
                warnings sample.models sample.db_no_profile (se_object e))
           (ctx_items ctx).
Proof.
  split; [reflexivity|].
  exact (submissions_list_entries sample.models sample.subs_form
           sample.db_no_profile sample.request 1 sample.conference eq_refl).
Defined.

Lemma elem_of_author_profile_values db sub f l upk :
  (f, l, upk) ∈ author_profile_values db sub <->
  exists u p a,
    u ∈ users db /\ user_pk u = upk /\ profile u = Some p /\
    f = first_name p /\ l = last_name p /\
    a ∈ authorships db /\ author_user a = upk /\
    author_submission a = sub_pk sub.
Proof.
  unfold author_profile_values, sub_authors. rewrite list_elem_of_bind. split.
  - intros (a & Hin & Ha).
    apply list_elem_of_In, filter_In in Ha as [Ha Hsub%Z.eqb_eq].
    apply list_elem_of_bind in Hin as (u & Hin & Hu).
    apply list_elem_of_In, filter_In in Hu as [Hu Huser%Z.eqb_eq].
    destruct (profile u) as [p|] eqn:Hp; [|by apply elem_of_nil in Hin].
    apply list_elem_of_singleton in Hin as [= -> -> ->].
    exists u, p, a. rewrite <- !list_elem_of_In in *. done.
  - intros (u & p & a & Hu & <- & Hp & -> & -> & Ha & Huser & Hsub).
    exists a. split.
    + apply list_elem_of_bind. exists u. split.
      * rewrite Hp. by apply list_elem_of_singleton.
      * apply list_elem_of_In, filter_In.
        split; [by apply list_elem_of_In | by apply Z.eqb_eq].
    + apply list_elem_of_In, filter_In.
      split; [by apply list_elem_of_In | by apply Z.eqb_eq].
Qed.

(** X4: in an entry of [submissions_list] the authors are the users who
    are stored with a profile and have an authorship of the submission,
    each shown under first and last name with the user's identifier; an
    author without profile is left out instead of raising.  The display
    string joins the shown names. *)
Theorem submissions_list_authors (M : ModelLayer)
  (form : FilterForm Submission) (db : DB) (request : HttpRequest) (pk : Z)
  (ctx : ListContext SubmissionEntry) (e : SubmissionEntry) :
  submissions_list M form db request pk = Ok ctx ->
  e ∈ ctx_items ctx ->
  (forall name upk,
     (name, upk) ∈ se_authors e <->
     exists u p a,
       u ∈ users db /\ user_pk u = upk /\ profile u = Some p /\
       name = first_name p +:+ " " +:+ last_name p /\
       a ∈ authorships db /\ author_user a = upk /\
       author_submission a = se_pk e) /\
  se_authors_display e = join ", " (fst <$> se_authors e).
Proof.
  intros Hctx He.
  destruct (get_conference_or_404 db pk) as [conference|err] eqn:Hconf.
  2: { unfold submissions_list in Hctx. by rewrite Hconf in Hctx. }
  rewrite (submissions_list_eq _ _ _ _ _ _ Hconf) in Hctx.
  injection Hctx as <-. simpl in He.
  apply list_elem_of_fmap in He as (sub & -> & _). simpl. split.
  - intros name upk. rewrite list_elem_of_fmap. split.
    + intros ([[f l] upk'] & [= -> ->] & Hin).
      apply elem_of_author_profile_values in Hin
        as (u & p & a & ? & ? & ? & -> & -> & ? & ? & ?).
      by exists u, p, a.
    + intros (u & p & a & Hu & Hupk & Hp & -> & Ha & Huser & Hsub).
      exists (first_name p, last_name p, upk). split; [done|].
      apply elem_of_author_profile_values. by exists u, p, a.
  - by rewrite <- list_fmap_compose.
Qed.

Lemma submissions_list_authors_witness :
  exists ctx e,
    submissions_list sample.models sample.subs_form sample.db_no_profile
      sample.request 1 = Ok ctx /\
    e ∈ ctx_items ctx /\
    se_pk e = 3 /\
    se_authors e = [] /\
    (forall name upk,
       (name, upk) ∈ se_authors e <->
       exists u p a,
         u ∈ users sample.db_no_profile /\ user_pk u = upk /\
         profile u = Some p /\
         name = first_name p +:+ " " +:+ last_name p /\
         a ∈ authorships sample.db_no_profile /\ author_user a = upk /\
         author_submission a = se_pk e) /\
    se_authors_display e = join ", " (fst <$> se_authors e).
Proof.
  eexists _, (shaped_submission sample.models sample.db_no_profile
                (mkSubmission 3 "T3" "A3" "SUBMIT" 1 None EmptyString None)).
  split; [vm_compute; reflexivity|].
  assert (shaped_submission sample.models sample.db_no_profile
            (mkSubmission 3 "T3" "A3" "SUBMIT" 1 None EmptyString None) ∈
          ctx_items
            (mkListContext sample.conference
               (shaped_submission sample.models sample.db_no_profile <$>
                  submission_set sample.db_no_profile sample.conference)))
    as Hin by (right; left).
  split; [exact Hin|]. split; [reflexivity|]. split; [reflexivity|].
  exact (submissions_list_authors sample.models sample.subs_form
           sample.db_no_profile sample.request 1 _ _ eq_refl Hin).
Defined.

(** * More on dictionaries *)

Section dict_more.
Context {K V : Type} (key : K -> Z).
Local Open Scope list_scope.

Lemma dict_comp_Raise (f : K -> result V) l (d : list (K * V)) e :
  dict_comp key f l d = Raise e -> exists k, k ∈ l /\ f k = Raise e.
Proof.
  revert d. induction l as [|k l IH]; intros d; [discriminate|].
  rewrite dict_comp_cons. destruct (f k) as [v|e'] eqn:Hk.
  - rewrite bind_Ok_l. intros (k' & Hin & Hk')%IH. exists k'.
    split; [by right | done].
  - intros [= ->]. exists k. split; [by left | done].
Qed.

Lemma dict_comp_Ok_all (f : K -> result V) l (d d' : list (K * V)) :
  dict_comp key f l d = Ok d' -> Forall (fun k => returns (f k)) l.
Proof.
  revert d. induction l as [|k l IH]; intros d; [constructor|].
  rewrite dict_comp_cons. intros (v & Hv & Hrest)%bind_Ok.
  constructor; [by exists v | by eapply IH].
Qed.

(** Assignments never make two entries with one key. *)
Lemma dict_comp_keys_distinct (f : K -> result V) l (d d' : list (K * V)) :
  NoDup (dict_keys key d) ->
  dict_comp key f l d = Ok d' ->
  NoDup (dict_keys key d').
Proof.
  revert d. induction l as [|k l IH]; intros d Hnodup.
  - by intros [= <-].
  - rewrite dict_comp_cons. intros (v & Hv & Hrest)%bind_Ok.
    refine (IH _ _ Hrest).
    destruct (decide (key k ∈ dict_keys key d)) as [Hin|Hfresh].
    + by rewrite dict_set_keys_in.
    + rewrite dict_set_keys_fresh by done. apply NoDup_app.
      split; [done|]. split; [|apply NoDup_singleton].
      intros x Hx ->%list_elem_of_singleton. done.
Qed.

Lemma dict_set_fresh (k : K) (v : V) (d : list (K * V)) :
  key k ∉ dict_keys key d -> dict_set key k v d = d ++ [(k, v)].
Proof.
  induction d as [|[k' v'] d IH]; simpl; [done|].
  intros [Hne Hfresh]%not_elem_of_cons.
  destruct (Z.eqb_spec (key k') (key k)) as [Heq|_]; [congruence|].
  f_equal. by apply IH.
Qed.

(** With keys that are all different, the comprehension appends one
    entry per element, in order, holding that element and its value. *)
Lemma dict_comp_NoDup_entries (f : K -> result V) l (d d' : list (K * V)) :
  NoDup (dict_keys key d ++ (key <$> l)) ->
  dict_comp key f l d = Ok d' ->
  exists d2, d' = d ++ d2 /\ Forall2 (fun k kv => kv.1 = k /\ f k = Ok kv.2) l d2.
Proof.
  revert d. induction l as [|k l IH]; intros d Hnodup.
  - intros [= <-]. exists []. by rewrite app_nil_r.
  - rewrite dict_comp_cons. intros (v & Hv & Hrest)%bind_Ok.
    rewrite fmap_cons in Hnodup.
    assert (key k ∉ dict_keys key d) as Hfresh.
    { apply NoDup_app in Hnodup as (_ & Hdisj & _). intros Hin.
      apply (Hdisj _ Hin). by left. }
    rewrite dict_set_fresh in Hrest by done.
    assert (NoDup (dict_keys key (d ++ [(k, v)]) ++ (key <$> l))) as Hnodup'.
    { unfold dict_keys. rewrite fmap_app, <- app_assoc. done. }
    destruct (IH _ Hnodup' Hrest) as (d2 & -> & Hall).
    exists ((k, v) :: d2). rewrite <- app_assoc. split; [done|].
    by constructor.
Qed.
End dict_more.

(** * The users listing, entry by entry *)

Lemma user_profile_Raise u e :
  user_profile u = Raise e <-> profile u = None /\ e = RelatedObjectDoesNotExist.
Proof.
  unfold user_profile. destruct (profile u); split;
    [discriminate | by intros [[=] _] | by intros [= <-] | by intros [_ ->]].
Qed.

Lemma user_profile_returns u : returns (user_profile u) <-> is_Some (profile u).
Proof.
  unfold user_profile. destruct (profile u) as [p|]; split.
  - by eexists.
  - by eexists.
  - by intros [? [=]].
  - by intros [? [=]].
Qed.

(** Once the profiles are read, the rest of the view cannot raise, and
    every entry is the shape of its user and profile. *)
Lemma users_list_eq (M : ModelLayer) (form : FilterForm User) (db : DB)
  (request : HttpRequest) (pk : Z) (conference : Conference)
  (profiles : list (User * Profile)) :
  get_conference_or_404 db pk = Ok conference ->
  dict_comp user_pk user_profile
    (listed_users form db request conference) [] = Ok profiles ->
  users_list M form db request pk =
  Ok (mkListContext conference
        ((fun kv => shaped_user M db conference kv.1 kv.2) <$> profiles)).
Proof.
  intros Hconf Hprofiles.
  rewrite (users_list_unfold _ _ _ _ _ _ Hconf), Hprofiles, bind_Ok_l.
  destruct (dict_comp_returns user_pk
              (fun user => Ok (user_authorships_in db conference user))
              (listed_users form db request conference) [])
    as [authors Hauthors].
  { apply Forall_forall. intros u _. by eexists. }
  rewrite Hauthors, bind_Ok_l.
  rewrite (mapM_fmap_Ok _ (fun kv => shaped_user M db conference kv.1 kv.2));
    [done|].
  intros [user prof] Hin.
  assert (user_pk user ∈ dict_keys user_pk authors) as Hkey.
  { apply (elem_of_dict_comp_keys user_pk _ _ _ _ _ Hauthors). right.
    assert (user_pk user ∈ dict_keys user_pk profiles) as Hk.
    { apply list_elem_of_fmap. by exists (user, prof). }
    apply (elem_of_dict_comp_keys user_pk _ _ _ _ _ Hprofiles) in Hk
      as [Hk|Hk]; [by apply elem_of_nil in Hk | done]. }
  apply (dict_get_returns user_pk) in Hkey as [au Hau].
  unfold user_entry. rewrite Hau, bind_Ok_l.
  apply dict_get_Ok in Hau as (k' & Hk' & Hkey).
  pose proof (authors_dict_entries _ _ _ _ Hauthors) as Hall.
  rewrite Forall_forall in Hall.
  pose proof (Hall _ Hk' user (eq_sym Hkey)) as Heq. simpl in Heq.
  by rewrite Heq.
Qed.

(** X5: what [users_list] can do.  It returns exactly when the conference
    is found and every user of the record set left by the filter is
    stored with a profile.  It raises the not-found exception when the
    conference is missing, and otherwise the missing-profile exception:
    one user without profile in the record set fails the page of every
    conference.  It raises nothing else, in particular no [KeyError] from
    its dictionaries. *)
Theorem users_list_outcome (M : ModelLayer) (form : FilterForm User)
  (db : DB) (request : HttpRequest) (pk : Z) :
  match users_list M form db request pk with
  | Ok ctx =>
      exists conference,
        get_conference_or_404 db pk = Ok conference /\
        ctx_conference ctx = conference /\
        Forall (fun u => is_Some (profile u))
               (listed_users form db request conference)
  | Raise e =>
      (e = Http404 /\ no_conference db pk) \/
      (e = RelatedObjectDoesNotExist /\
       exists conference u,
         get_conference_or_404 db pk = Ok conference /\
         u ∈ listed_users form db request conference /\
         profile u = None)
  end.
Proof.
  destruct (get_conference_or_404 db pk) as [conference|e] eqn:Hconf.
  - destruct (dict_comp user_pk user_profile
                (listed_users form db request conference) [])
      as [profiles|e] eqn:Hprofiles.
    + rewrite (users_list_eq _ _ _ _ _ _ _ Hconf Hprofiles).
      exists conference. split; [done|]. split; [done|].
      apply dict_comp_Ok_all in Hprofiles.
      eapply Forall_impl; [exact Hprofiles|]. intros u.
      apply user_profile_returns.
    + rewrite (users_list_unfold _ _ _ _ _ _ Hconf), Hprofiles, bind_Raise_l.
      apply dict_comp_Raise in Hprofiles as (u & Hu & Hraise).
      apply user_profile_Raise in Hraise as [Hnone ->].
      right. split; [done|]. by exists conference, u.
  - unfold users_list. rewrite Hconf, bind_Raise_l.
    apply get_conference_or_404_Raise in Hconf as [-> Hnone]. by left.
Qed.

(** On the second sample site user 7 has no profile: the users page of
    conference 2, where that user wrote nothing, fails as well. *)
Example users_list_no_profile :
  users_list sample.models sample.users_form sample.db_no_profile
    sample.request 2 = Raise RelatedObjectDoesNotExist.
Proof. reflexivity. Qed.

(** X6: when the form accepts the parameters, the entries of [users_list]
    are entries for the users that [form.apply] leaves, and for no other
    user. *)
Theorem users_list_filtered (M : ModelLayer) (form : FilterForm User)
  (db : DB) (request : HttpRequest) (pk : Z) (conference : Conference)
  (ctx : ListContext UserEntry) :
  get_conference_or_404 db pk = Ok conference ->
  form_is_valid form db conference (GET request) = true ->
  users_list M form db request pk = Ok ctx ->
  (forall u, u ∈ form_apply form db conference (GET request) (users db) ->
     exists e, e ∈ ctx_items ctx /\ ue_pk e = user_pk u /\
               num_submissions e =
                 length (user_authorships_in db conference u)) /\
  (forall e, e ∈ ctx_items ctx ->
     exists u, u ∈ form_apply form db conference (GET request) (users db) /\
               ue_pk e = user_pk u).
Proof.
  intros Hconf Hvalid Hctx.
  assert (listed_users form db request conference =
          form_apply form db conference (GET request) (users db)) as Hlisted
    by (unfold listed_users; by rewrite Hvalid).
  rewrite <- Hlisted. split.
  - intros u Hu. by eapply users_list_lookup.
  - intros e He. by eapply users_list_lookup_inv.
Qed.

Lemma users_list_filtered_witness :
  get_conference_or_404 sample.db 1 = Ok sample.conference /\
  form_is_valid sample.users_form sample.db sample.conference
    (GET fixtures.term_request) = true /\
  exists ctx,
    users_list sample.models sample.users_form sample.db
      fixtures.term_request 1 = Ok ctx /\
    ue_pk <$> ctx_items ctx = [2] /\
    (forall u,
       u ∈ form_apply sample.users_form sample.db sample.conference
             (GET fixtures.term_request) (users sample.db) ->
       exists e, e ∈ ctx_items ctx /\ ue_pk e = user_pk u /\
                 num_submissions e =
                   length (user_authorships_in sample.db sample.conference u)) /\
    (forall e, e ∈ ctx_items ctx ->
       exists u,
         u ∈ form_apply sample.users_form sample.db sample.conference
               (GET fixtures.term_request) (users sample.db) /\
         ue_pk e = user_pk u).
Proof.
  split; [reflexivity|]. split; [reflexivity|].
  eexists. split; [vm_compute; reflexivity|]. split; [reflexivity|].
  apply (users_list_filtered sample.models sample.users_form sample.db
           fixtures.term_request 1 sample.conference _ eq_refl eq_refl).
  vm_compute. reflexivity.
Defined.

(** X7: [users_list] never shows a user twice: the entries have pairwise
    different identifiers, also when the record set left by the filter
    holds a user more than once. *)
Theorem users_list_no_repeats (M : ModelLayer) (form : FilterForm User)
  (db : DB) (request : HttpRequest) (pk : Z) (ctx : ListContext UserEntry) :
  users_list M form db request pk = Ok ctx ->
  NoDup (ue_pk <$> ctx_items ctx).
Proof.
  intros Hctx.
  pose proof (users_list_outcome M form db request pk) as Hout.
  rewrite Hctx in Hout. destruct Hout as (conference & Hconf & _ & Hall).
  destruct (dict_comp_returns user_pk user_profile
              (listed_users form db request conference) [])
    as [profiles Hprofiles].
  { eapply Forall_impl; [exact Hall|]. intros u. apply user_profile_returns. }
  rewrite (users_list_eq _ _ _ _ _ _ _ Hconf Hprofiles) in Hctx.
  injection Hctx as <-. simpl. rewrite <- list_fmap_compose.
  refine (dict_comp_keys_distinct user_pk _ _ [] _ _ Hprofiles).
  apply NoDup_nil_2.
Qed.

Lemma users_list_no_repeats_witness :
  exists ctx,
    users_list sample.models fixtures.twice_form sample.db sample.request 1 =
      Ok ctx /\
    length (listed_users fixtures.twice_form sample.db sample.request
              sample.conference) = 8%nat /\
    ue_pk <$> ctx_items ctx = [7; 2; 9; 4] /\
    NoDup (ue_pk <$> ctx_items ctx).
Proof.
  eexists. split; [vm_compute; reflexivity|]. split; [reflexivity|].
  split; [reflexivity|].
  apply (users_list_no_repeats sample.models fixtures.twice_form sample.db
           sample.request 1).
  vm_compute. reflexivity.
Defined.

(** X8: when the users of the record set left by the filter have
    pairwise different identifiers, [users_list] has one entry per user
    of that set, in its order, and the entry shows that user's own
    profile and authorship count. *)
Theorem users_list_in_order (M : ModelLayer) (form : FilterForm User)
  (db : DB) (request : HttpRequest) (pk : Z) (conference : Conference)
  (ctx : ListContext UserEntry) :
  get_conference_or_404 db pk = Ok conference ->
  NoDup (user_pk <$> listed_users form db request conference) ->
  users_list M form db request pk = Ok ctx ->
  Forall2 (fun u e =>
             exists prof, profile u = Some prof /\
                          e = shaped_user M db conference u prof)
          (listed_users form db request conference) (ctx_items ctx).
Proof.
  intros Hconf Hnodup Hctx.
  pose proof (users_list_outcome M form db request pk) as Hout.
  rewrite Hctx, Hconf in Hout. destruct Hout as (c & [= <-] & _ & Hall).
  destruct (dict_comp_returns user_pk user_profile
              (listed_users form db request conference) [])
    as [profiles Hprofiles].
  { eapply Forall_impl; [exact Hall|]. intros u. apply user_profile_returns. }
  rewrite (users_list_eq _ _ _ _ _ _ _ Hconf Hprofiles) in Hctx.
  injection Hctx as <-. simpl.
  apply (dict_comp_NoDup_entries user_pk) in Hprofiles
    as (d2 & -> & Hentries); [|done].
  simpl. apply Forall2_fmap_r.
  eapply Forall2_impl; [exact Hentries|].
  intros u [u' prof] [Hu Hprof]. simpl in *. subst u'. exists prof.
  split; [|done]. unfold user_profile in Hprof.
  by destruct (profile u); simplify_eq.
Qed.

Lemma users_list_in_order_witness :
  get_conference_or_404 sample.db 1 = Ok sample.conference /\
  NoDup (user_pk <$> listed_users sample.users_form sample.db sample.request
                       sample.conference) /\
  exists ctx,
    users_list sample.models sample.users_form sample.db sample.request 1 =
      Ok ctx /\
    Forall2 (fun u e =>
               exists prof, profile u = Some prof /\
                 e = shaped_user sample.models sample.db sample.conference
                       u prof)
            (listed_users sample.users_form sample.db sample.request
               sample.conference)
            (ctx_items ctx).
Proof.
  assert (NoDup (user_pk <$> listed_users sample.users_form sample.db
                               sample.request sample.conference)) as Hnodup.
  { apply (bool_decide_unpack _). vm_compute. exact I. }
  split; [reflexivity|]. split; [exact Hnodup|].
  eexists. split; [vm_compute; reflexivity|].
  apply (users_list_in_order sample.models sample.users_form sample.db
           sample.request 1 sample.conference _ eq_refl Hnodup).
  vm_compute. reflexivity.
Defined.

(** * What the submissions export can do *)

Lemma mapM_Raise {A B} (f : A -> result B) l e :
  mapM f l = Raise e -> exists x, x ∈ l /\ f x = Raise e.
Proof.
  induction l as [|x l IH]; [discriminate|].
  rewrite mapM_cons. destruct (f x) as [y|e'] eqn:Hx.
  - rewrite bind_Ok_l. destruct (mapM f l) as [k|e'] eqn:Hl; [discriminate|].
    intros [= ->]. destruct (IH eq_refl) as (x' & Hin & Hx').
    exists x'. split; [by right | done].
  - intros [= ->]. exists x. split; [by left | done].
Qed.

Lemma get_user_Ok db pk u :
  get_user db pk = Ok u -> u ∈ users db /\ user_pk u = pk.
Proof.
  unfold get_user.
  destruct (List.find _ (users db)) as [u'|] eqn:Hfind; [|discriminate].
  intros [= <-]. apply find_some in Hfind as [Hin Hpk].
  split; [by apply list_elem_of_In | by apply Z.eqb_eq].
Qed.

Lemma get_user_Raise db pk e : get_user db pk = Raise e -> e = DoesNotExist.
Proof.
  unfold get_user. destruct (List.find _ (users db)); [discriminate|].
  by intros [= <-].
Qed.

Lemma author_profile_Raise db a e :
  author_profile db a = Raise e ->
  e = RelatedObjectDoesNotExist \/ e = DoesNotExist.
Proof.
  unfold author_profile.
  destruct (get_user db (author_user a)) as [u|e'] eqn:Hu.
  - rewrite bind_Ok_l. intros [_ ->]%user_profile_Raise. by left.
  - rewrite bind_Raise_l. intros [= ->]. right. by eapply get_user_Raise.
Qed.

Lemma bind_Raise {A B} (r : result A) (k : A -> result B) e :
  r ≫= k = Raise e -> r = Raise e \/ exists a, r = Ok a /\ k a = Raise e.
Proof.
  destruct r as [a|e'].
  - rewrite bind_Ok_l. intros Hk. right. by exists a.
  - rewrite bind_Raise_l. intros [= ->]. by left.
Qed.

Lemma author_field_Raise db (g : Profile -> string) l e :
  mapM (fun a => p ← author_profile db a; Ok (g p)) l = Raise e ->
  e = RelatedObjectDoesNotExist \/ e = DoesNotExist.
Proof.
  intros (a & _ & Ha)%mapM_Raise.
  apply bind_Raise in Ha as [Ha|(p & _ & [=])].
  by eapply author_profile_Raise.
Qed.

Lemma submission_row_Raise M route set_order db request number sub e :
  submission_row M route set_order db request number sub = Raise e ->
  e = RelatedObjectDoesNotExist \/ e = DoesNotExist.
Proof.
  unfold submission_row. intros H.
  apply bind_Raise in H as [H|(names & _ & H)];
    [by eapply author_field_Raise|].
  apply bind_Raise in H as [H|(labels & _ & H)];
    [by eapply author_field_Raise|].
  apply bind_Raise in H as [H|(owner & Howner & H)].
  - destruct (created_by sub) as [upk|]; [|discriminate].
    apply bind_Raise in H as [H|(u & _ & [=])].
    right. by eapply get_user_Raise.
  - apply bind_Raise in H as [H|(corr_author & _ & [=])].
    destruct owner as [o|]; [|discriminate].
    apply bind_Raise in H as [H|(p & _ & [=])].
    apply user_profile_Raise in H as [_ ->]. by left.
Qed.

(** X9: what [get_submissions_csv] can do.  It returns exactly when the
    conference is found and every user it reads (behind the authors of
    the conference's submissions, and their creators) is stored with a
    profile.  It raises the not-found exception when the conference is
    missing, and otherwise only the exception of a missing profile or of
    a missing user row: one such author fails the export of the whole
    conference. *)
Theorem get_submissions_csv_outcome (M : ModelLayer) (route : urls.Route)
  (set_order : list string -> list string) (db : DB) (now : datetime)
  (request : HttpRequest) (pk : Z) :
  match get_submissions_csv M route set_order db now request pk with
  | Ok resp =>
      exists conference,
        get_conference_or_404 db pk = Ok conference /\
        profiles_linked db conference
  | Raise e =>
      (e = Http404 /\ no_conference db pk) \/
      ((e = RelatedObjectDoesNotExist \/ e = DoesNotExist) /\
       exists conference,
         get_conference_or_404 db pk = Ok conference /\
         ¬ profiles_linked db conference)
  end.
Proof.
  destruct (get_conference_or_404 db pk) as [conference|e] eqn:Hconf.
  - destruct (get_submissions_csv M route set_order db now request pk)
      as [resp|e] eqn:Hresp.
    + exists conference. split; [done|].
      apply (get_submissions_csv_returns_inv M route set_order db now request
               pk conference Hconf). rewrite Hresp. by eexists.
    + right. split.
      * unfold get_submissions_csv in Hresp. rewrite Hconf, bind_Ok_l in Hresp.
        destruct (write_rows _ _ _) as [body|e'] eqn:Hbody; [discriminate|].
        injection Hresp as ->.
        apply write_rows_Raise in Hbody as (i & sub & _ & Hrow).
        by eapply submission_row_Raise.
      * exists conference. split; [done|]. intros Hlinked.
        destruct (get_submissions_csv_returns M route set_order db now request
                    pk conference Hconf Hlinked) as [resp Hresp'].
        congruence.
  - unfold get_submissions_csv. rewrite Hconf, bind_Raise_l.
    apply get_conference_or_404_Raise in Hconf as [-> Hnone]. by left.
Qed.

(** On the second sample site the author of submission 3 has no profile:
    the export of conference 1 fails, although submission 5 could be
    written. *)
Example get_submissions_csv_no_profile :
  get_submissions_csv sample.models sample.route remove_dups
    sample.db_no_profile sample.now sample.request 1 =
  Raise RelatedObjectDoesNotExist.
Proof. vm_compute. reflexivity. Qed.

(** X10: the export and the listing agree.  With the filter off, the ID
    column of [get_submissions_csv] holds the identifiers of the entries
    of [submissions_list] for the same conference, rearranged in
    ascending order: no submission of the page is missing from the file
    and none is added. *)
Theorem export_agrees_with_listing (M : ModelLayer) (route : urls.Route)
  (set_order : list string -> list string) (form : FilterForm Submission)
  (db : DB) (now : datetime) (request : HttpRequest) (pk : Z)
  (conference : Conference) :
  get_conference_or_404 db pk = Ok conference ->
  filter_off form db conference request ->
  profiles_linked db conference ->
  exists resp ctx,
    get_submissions_csv M route set_order db now request pk = Ok resp /\
    submissions_list M form db request pk = Ok ctx /\
    column 1 (tail (rows resp)) ≡ₚ
      (fun e => Some (CInt (se_pk e))) <$> ctx_items ctx.
Proof.
  intros Hconf Hoff Hlinked.
  destruct (get_submissions_csv_returns M route set_order db now request
              pk conference Hconf Hlinked) as [resp Hresp].
  destruct (get_submissions_csv_Ok _ _ _ _ _ _ _ _ _ Hconf Hresp)
    as (body & Hbody & ->).
  eexists _, _. split; [exact Hresp|].
  split; [by apply submissions_list_eq|]. simpl.
  rewrite (listed_submissions_filter_off _ _ _ _ Hoff).
  rewrite <- list_fmap_compose.
  assert (column 1 body =
          (fun r => Some (CInt (sub_pk r))) <$>
            order_subs_by_pk (submission_set db conference)) as ->.
  { eapply (write_rows_field _ 1 (fun r => CInt (sub_pk r)));
      [|exact Hbody].
    intros n r line (?&?&?&?&_&_&_&_&->)%submission_row_Ok. done. }
  apply fmap_Permutation, order_subs_by_pk_perm.
Qed.

Lemma export_agrees_with_listing_witness :
  get_conference_or_404 sample.db 1 = Ok sample.conference /\
  filter_off sample.subs_form sample.db sample.conference sample.bad_request /\
  profiles_linked sample.db sample.conference /\
  exists resp ctx,
    get_submissions_csv sample.models sample.route remove_dups sample.db
      sample.now sample.bad_request 1 = Ok resp /\
    submissions_list sample.models sample.subs_form sample.db
      sample.bad_request 1 = Ok ctx /\
    column 1 (tail (rows resp)) ≡ₚ
      (fun e => Some (CInt (se_pk e))) <$> ctx_items ctx.
Proof.
  assert (profiles_linked sample.db sample.conference) as Hlinked.
  { apply (bool_decide_unpack _). vm_compute. exact I. }
  assert (filter_off sample.subs_form sample.db sample.conference
            sample.bad_request) as Hoff by (left; reflexivity).
  split; [reflexivity|]. split; [exact Hoff|]. split; [exact Hlinked|].
  exact (export_agrees_with_listing sample.models sample.route remove_dups
           sample.subs_form sample.db sample.now sample.bad_request 1
           sample.conference eq_refl Hoff Hlinked).
Defined.

(** * Attachment names over time *)

Lemma string_app_inv_r (a b c : string) :
  String.length a = String.length b -> a +:+ c = b +:+ c -> a = b.
Proof.
  revert b. induction a as [|x a IH]; intros [|y b]; try discriminate.
  - done.
  - rewrite !string_app_cons. intros [= Hlen] [= -> Heq]. f_equal.
    by apply IH.
Qed.

Lemma strftime_length t : String.length (strftime t) = 13%nat.
Proof. reflexivity. Qed.

Lemma attachment_inj entity t1 t2 :
  valid_datetime t1 -> valid_datetime t2 ->
  attachment entity (strftime t1) = attachment entity (strftime t2) ->
  t1 = t2.
Proof.
  intros H1 H2. unfold attachment. intros Heq.
  do 4 apply String.app_inj in Heq.
  apply string_app_inv_r in Heq; [|by rewrite !strftime_length].
  apply parse_timestamp_strftime in H1, H2. congruence.
Qed.

(** X11: the attachment name tells the minute of the export.  Two
    responses of the same export whose Content-Disposition headers are
    equal were made from the same clock reading (year, month, day, hour
    and minute), so exports made in different minutes never share a file
    name. *)
Theorem attachment_name_minute (M : ModelLayer) (route : urls.Route)
  (set_order : list string -> list string) (db db' : DB) (t1 t2 : datetime)
  (request request' : HttpRequest) (pk pk' : Z) :
  valid_datetime t1 -> valid_datetime t2 ->
  (forall r1 r2,
     get_submissions_csv M route set_order db t1 request pk = Ok r1 ->
     get_submissions_csv M route set_order db' t2 request' pk' = Ok r2 ->
     content_disposition r1 = content_disposition r2 -> t1 = t2) /\
  (forall r1 r2,
     get_authors_csv M db t1 request pk = Ok r1 ->
     get_authors_csv M db' t2 request' pk' = Ok r2 ->
     content_disposition r1 = content_disposition r2 -> t1 = t2).
Proof.
  intros H1 H2. split; intros r1 r2 Hr1 Hr2.
  - unfold get_submissions_csv in Hr1, Hr2.
    apply bind_Ok in Hr1 as (c1 & _ & Hr1).
    apply bind_Ok in Hr1 as (b1 & _ & [= <-]).
    apply bind_Ok in Hr2 as (c2 & _ & Hr2).
    apply bind_Ok in Hr2 as (b2 & _ & [= <-]).
    simpl. by apply attachment_inj.
  - unfold get_authors_csv in Hr1, Hr2.
    apply bind_Ok in Hr1 as (c1 & _ & Hr1).
    apply bind_Ok in Hr1 as (b1 & _ & [= <-]).
    apply bind_Ok in Hr2 as (c2 & _ & Hr2).
    apply bind_Ok in Hr2 as (b2 & _ & [= <-]).
    simpl. by apply attachment_inj.
Qed.

Lemma attachment_name_minute_witness :
  valid_datetime sample.now /\ valid_datetime fixtures.later /\
  exists r1 r2,
    get_submissions_csv sample.models sample.route remove_dups sample.db
      sample.now sample.request 1 = Ok r1 /\
    get_submissions_csv sample.models sample.route remove_dups sample.db
      fixtures.later sample.request 1 = Ok r2 /\
    content_disposition r1 <> content_disposition r2.
Proof.
  assert (valid_datetime sample.now) as H1
    by (vm_compute; intuition discriminate).
  assert (valid_datetime fixtures.later) as H2
    by (vm_compute; intuition discriminate).
  split; [exact H1|]. split; [exact H2|].
  eexists _, _. split; [vm_compute; reflexivity|].
  split; [vm_compute; reflexivity|].
  intros Heq.
  pose proof (proj1 (attachment_name_minute sample.models sample.route
                       remove_dups sample.db sample.db sample.now
                       fixtures.later sample.request sample.request 1 1 H1 H2)
                _ _ eq_refl eq_refl Heq) as Hsame.
  discriminate Hsame.
Defined.

(** X12: the other columns of a submission row.  TITLE is the title;
    AUTHORS joins the full names of the profiles behind the submission's
    authorships, one name per authorship in their order; LANGUAGE is the
    language label of the submission type, empty without a type; and when
    the submission has a creator, CORR_AUTHOR and CORR_EMAIL are the full
    name and the e-mail of that user, whether or not the creator is among
    the authors. *)
Theorem get_submissions_csv_row_contents (M : ModelLayer)
  (route : urls.Route) (set_order : list string -> list string) (db : DB)
  (now : datetime) (request : HttpRequest) (pk : Z)
  (conference : Conference) (resp : HttpResponse) :
  get_conference_or_404 db pk = Ok conference ->
  get_submissions_csv M route set_order db now request pk = Ok resp ->
  forall (i : nat) (line : row),
    rows resp !! S i = Some line ->
    exists sub names,
      sub ∈ submission_set db conference /\
      line !! 1%nat = Some (CInt (sub_pk sub)) /\
      line !! 2%nat = Some (CStr (title sub)) /\
      Forall2 (fun a name =>
                 exists u p,
                   u ∈ users db /\ user_pk u = author_user a /\
                   profile u = Some p /\ name = get_full_name M p)
              (sub_authors db sub) names /\
      line !! 3%nat = Some (CStr (join ", " names)) /\
      line !! 7%nat =
        Some (CStr (match stype sub with
                    | Some t => get_language_display M t
                    | None => EmptyString
                    end)) /\
      (forall upk, created_by sub = Some upk ->
         exists u p,
           u ∈ users db /\ user_pk u = upk /\ profile u = Some p /\
           line !! 5%nat = Some (CStr (get_full_name M p)) /\
           line !! 6%nat = Some (CStr (email u))).
Proof.
  intros Hconf Hresp i line Hline.
  destruct (get_submissions_csv_Ok _ _ _ _ _ _ _ _ _ Hconf Hresp)
    as (body & Hbody & ->).
  simpl in Hline.
  destruct (write_rows_lookup_inv _ _ _ _ _ _ Hbody Hline)
    as (sub & Hsub & Hrow).
  apply submission_row_Ok in Hrow
    as (names & labels & ca & ce & Hnames & _ & _ & Howner & ->).
  exists sub, names. split.
  { rewrite <- (order_subs_by_pk_perm (submission_set db conference)).
    by eapply list_elem_of_lookup_2. }
  do 2 (split; [reflexivity|]). split.
  { apply mapM_Ok in Hnames. eapply Forall2_impl; [exact Hnames|].
    intros a name (p & Hp & [= <-])%bind_Ok.
    unfold author_profile in Hp. apply bind_Ok in Hp as (u & Hu & Hp).
    apply get_user_Ok in Hu as [Hin Hpk]. exists u, p.
    unfold user_profile in Hp. by destruct (profile u); simplify_eq. }
  do 2 (split; [reflexivity|]).
  intros upk Hupk.
  destruct (Howner upk Hupk) as (u & p & Hu & Hp & -> & ->).
  apply get_user_Ok in Hu as [Hin Hpk]. by exists u, p.
Qed.

Lemma get_submissions_csv_row_contents_witness :
  get_conference_or_404 sample.db 1 = Ok sample.conference /\
  exists resp,
    get_submissions_csv sample.models sample.route remove_dups sample.db
      sample.now sample.request 1 = Ok resp /\
    forall (i : nat) (line : row),
      rows resp !! S i = Some line ->
      exists sub names,
        sub ∈ submission_set sample.db sample.conference /\
        line !! 1%nat = Some (CInt (sub_pk sub)) /\
        line !! 2%nat = Some (CStr (title sub)) /\
        Forall2 (fun a name =>
                   exists u p,
                     u ∈ users sample.db /\ user_pk u = author_user a /\
                     profile u = Some p /\
                     name = get_full_name sample.models p)
                (sub_authors sample.db sub) names /\
        line !! 3%nat = Some (CStr (join ", " names)) /\
        line !! 7%nat =
          Some (CStr (match stype sub with
                      | Some t => get_language_display sample.models t
                      | None => EmptyString
                      end)) /\
        (forall upk, created_by sub = Some upk ->
           exists u p,
             u ∈ users sample.db /\ user_pk u = upk /\ profile u = Some p /\
             line !! 5%nat = Some (CStr (get_full_name sample.models p)) /\
             line !! 6%nat = Some (CStr (email u))).
Proof.
  split; [reflexivity|]. eexists. split; [vm_compute; reflexivity|].
  apply (get_submissions_csv_row_contents sample.models sample.route
           remove_dups sample.db sample.now sample.request 1
           sample.conference _ eq_refl).
  vm_compute. reflexivity.
Defined.

(** * The listings when the form rejects the filter *)











(** The authors of submission 5 are shown in the order of its
    authorships: users 2, 7 and 9. *)
Example submissions_list_authors_order :
  (fun ctx => se_authors_display <$> ctx_items ctx) <$>
    match submissions_list sample.models sample.subs_form sample.db
            sample.bad_request 1 with
    | Ok ctx => Some ctx
    | Raise _ => None
    end =
  Some ["Ann Lee, Bob Ray, Cy Dow"; "Bob Ray"].
Proof. vm_compute. reflexivity. Qed.
